(** * The conversation qualification engine of the dental lead assistant

    A shallow embedding of [src/models/models.py] (the qualification data
    model) and of [src/services/ai_service.py] (the extractor, the escalation
    evaluator, the response generator and the turn orchestrator), followed by
    the properties the specification states about them.

    Conventions of the embedding.
    - A Python [str] is a [string]: one [ascii] per character, so the model
      covers the strings whose code points are below 256.  [Py.lower],
      [Py.strip] and [Py.repr] are Python's [str.lower], [str.strip] and
      [repr] on that range.
    - A value that Python leaves dynamically typed (what [json.loads]
      returns, what [setattr] stores in a pydantic field) is a [Py.val].
    - [try: ... except Exception] is [try_except] in a state and exception
      monad [M]; the state survives a raise, as mutation does in Python.
    - The session dicts are objects: [active_sessions] maps a lead id to a
      location and the [heap] maps locations to dicts, so that a dict fetched
      from [active_sessions] and mutated is the stored one.
    - The data object is the record of its nine fields.  An assignment to a
      name that is an attribute but no field is decided by the environment:
      it raises (pydantic's [ValueError] for a public name such as [dict],
      [TypeError] for [__class__]), or it is a store the code never reads
      back (an underscore name such as [__doc__]).  The assignments that
      re-wire the object itself ([__dict__] given a dict, the slots and the
      cached internals pydantic reads at the next field access or dump) have
      no outcome in a record of fields: a reply that names one of them with a
      true value is outside the model.
    - [x.dict()] and [x.json()] of the data object are taken to succeed; the
      prompts are kept as terms over the data, not as their texts. *)

From Stdlib Require Import Ascii String ZArith QArith DecimalString.
From stdpp Require Import base option list strings gmap fin_maps.

Set Warnings "-register-all".

Open Scope Z_scope.

(** ** Python builtins used by the source *)

Module Py.

(** Values of dynamically typed expressions: the results of [json.loads].
    A float carries its [str()] text and whether it is non-zero, the only two
    things the source observes of it.  A dict lists its items in insertion
    order. *)
Inductive val : Type :=
  | VNone
  | VBool (b : bool)
  | VInt (n : Z)
  | VFloat (text : string) (nonzero : bool)
  | VStr (s : string)
  | VList (l : list val)
  | VDict (items : list (string * val)).

(** [bool(v)], the truth value tested by [if v] and [not v]. *)
Definition truthy (v : val) : bool :=
  match v with
  | VNone => false
  | VBool b => b
  | VInt n => negb (n =? 0)
  | VFloat _ nz => nz
  | VStr s => negb (String.eqb s "")
  | VList l => match l with [] => false | _ => true end
  | VDict d => match d with [] => false | _ => true end
  end.

(** [str.lower] on one character: A-Z and the upper case letters of
    Latin-1 (0xC0-0xDE without the multiplication sign 0xD7) move by 32. *)
Definition lower_char (c : ascii) : ascii :=
  let n := N_of_ascii c in
  if ((65 <=? n) && (n <=? 90))%N
     || ((192 <=? n) && (n <=? 222) && negb (n =? 215))%N
  then ascii_of_N (n + 32)
  else c.

Fixpoint lower (s : string) : string :=
  match s with
  | EmptyString => EmptyString
  | String c s' => String (lower_char c) (lower s')
  end.

(** [s.startswith(p)] *)
Fixpoint startswith (p s : string) : bool :=
  match p, s with
  | EmptyString, _ => true
  | String _ _, EmptyString => false
  | String a p', String b s' => Ascii.eqb a b && startswith p' s'
  end.

(** [needle in hay] for two strings. *)
Fixpoint contains (needle hay : string) : bool :=
  startswith needle hay
  || match hay with
     | EmptyString => false
     | String _ hay' => contains needle hay'
     end.

(** [any(w in s for w in words)] *)
Definition any_in (words : list string) (s : string) : bool :=
  existsb (fun w => contains w s) words.

(** [str.isspace] on one character. *)
Definition isspace (c : ascii) : bool :=
  let n := N_of_ascii c in
  (((9 <=? n) && (n <=? 13)) || ((28 <=? n) && (n <=? 32))
   || (n =? 133) || (n =? 160))%N.

Fixpoint lstrip (s : string) : string :=
  match s with
  | EmptyString => EmptyString
  | String c s' => if isspace c then lstrip s' else s
  end.

Fixpoint rstrip (s : string) : string :=
  match s with
  | EmptyString => EmptyString
  | String c s' =>
      match rstrip s' with
      | EmptyString => if isspace c then EmptyString else String c EmptyString
      | r => String c r
      end
  end.

(** [s.strip()] *)
Definition strip (s : string) : string := rstrip (lstrip s).

(** [sep.join(parts)] *)
Fixpoint join (sep : string) (parts : list string) : string :=
  match parts with
  | [] => ""
  | [p] => p
  | p :: rest => p +:+ sep +:+ join sep rest
  end.

(** [l[-n:]] for a positive [n]: the last [n] elements, or all of [l]. *)
Definition last_n {A} (n : nat) (l : list A) : list A :=
  drop (length l - n)%nat l.

Definition hex_digit (n : N) : ascii :=
  if (n <? 10)%N then ascii_of_N (48 + n) else ascii_of_N (87 + n).

Definition squote : ascii := "039"%char.
Definition dquote : ascii := "034"%char.
Definition backslash : ascii := "092"%char.

Definition mem_char (c : ascii) (s : string) : bool :=
  existsb (Ascii.eqb c) (list_ascii_of_string s).

(** [repr] of one character of a string quoted with [quote]. *)
Definition repr_char (quote c : ascii) : string :=
  let n := N_of_ascii c in
  if Ascii.eqb c quote || Ascii.eqb c backslash
  then String backslash (String c "")
  else if (n =? 9)%N then String backslash "t"
  else if (n =? 10)%N then String backslash "n"
  else if (n =? 13)%N then String backslash "r"
  else if ((n <? 32) || ((127 <=? n) && (n <=? 160)) || (n =? 173))%N
  then String backslash
         (String "x" (String (hex_digit (n / 16)) (String (hex_digit (n mod 16)) "")))
  else String c "".

Fixpoint repr_chars (quote : ascii) (s : string) : string :=
  match s with
  | EmptyString => EmptyString
  | String c s' => repr_char quote c +:+ repr_chars quote s'
  end.

(** [repr(s)] for a string: single quotes, unless [s] has a single quote
    and no double quote. *)
Definition repr_str (s : string) : string :=
  let quote := if mem_char squote s && negb (mem_char dquote s)
               then dquote else squote in
  String quote (repr_chars quote s +:+ String quote "").

Definition str_of_int (n : Z) : string :=
  NilZero.string_of_int (Z.to_int n).

(** [repr(v)] *)
Fixpoint repr (v : val) : string :=
  match v with
  | VNone => "None"
  | VBool true => "True"
  | VBool false => "False"
  | VInt n => str_of_int n
  | VFloat text _ => text
  | VStr s => repr_str s
  | VList l => "[" +:+ join ", " (map repr l) +:+ "]"
  | VDict d =>
      "{" +:+ join ", " (map (fun kv => repr_str (fst kv) +:+ ": " +:+ repr (snd kv)) d)
          +:+ "}"
  end.

(** [str(v)]: a string is itself, everything else prints as its [repr]. *)
Definition str (v : val) : string :=
  match v with
  | VStr s => s
  | _ => repr v
  end.

End Py.

(** ** Exceptions and results *)

(** The exceptions of class [Exception] that the modelled code can meet.
    [except Exception] catches every one of them. *)
Inductive exn : Type :=
  | ValidationError        (* pydantic: a required [str] field given [None] *)
  | ValueError             (* pydantic: [setattr] of a public name that is no field *)
  | AttributeError         (* a method looked up on a value that lacks it *)
  | TypeError              (* [len] of an unsized value, [json.loads(None)] *)
  | IndexError             (* [choices[0]] of an empty list *)
  | OtherError (name : string).  (* raised by a collaborator: API, JSON *)

Inductive Result (A : Type) : Type :=
  | Ok (a : A)
  | Raise (e : exn).
Arguments Ok {A} a.
Arguments Raise {A} e.

Definition is_ok {A} (r : Result A) : bool :=
  match r with Ok _ => true | Raise _ => false end.

#[global] Instance Result_ret : MRet Result := fun A a => Ok a.
#[global] Instance Result_bind : MBind Result := fun A B f r =>
  match r with Ok a => f a | Raise e => Raise e end.
#[global] Instance Result_fmap : FMap Result := fun A B f r =>
  match r with Ok a => Ok (f a) | Raise e => Raise e end.

(** ** The data model, [src/models/models.py] *)

(** [class PainLevel(str, Enum)]: the members, and the string each one
    is. *)
Module PainLevel.

Inductive t : Type := NONE | MILD | MODERATE | SEVERE | EMERGENCY.

Definition value (p : t) : string :=
  match p with
  | NONE => "0"
  | MILD => "1-3"
  | MODERATE => "4-6"
  | SEVERE => "7-8"
  | EMERGENCY => "9-10"
  end.

End PainLevel.

(** [class UrgencyLevel(str, Enum)] *)
Module UrgencyLevel.

Inductive t : Type := LOW | MEDIUM | HIGH | EMERGENCY.

Definition value (u : t) : string :=
  match u with
  | LOW => "low"
  | MEDIUM => "medium"
  | HIGH => "high"
  | EMERGENCY => "emergency"
  end.

End UrgencyLevel.

#[global] Instance PainLevel_eq_dec : EqDecision PainLevel.t.
Proof. solve_decision. Defined.

#[global] Instance UrgencyLevel_eq_dec : EqDecision UrgencyLevel.t.
Proof. solve_decision. Defined.

(** What the [urgency] attribute holds: a level, or the raw value a
    [setattr] put there (pydantic does not validate assignments). *)
Inductive UrgencyField : Type :=
  | Urgency (u : UrgencyLevel.t)
  | UrgencyRaw (v : Py.val).

(** [class QualificationData(BaseModel)].  The declared types are not
    enforced on assignment, so the fields that [setattr] writes hold a
    [Py.val]; [pain_level] is only ever written with a [PainLevel] or
    [None]. *)
Record QualificationData : Type := mkQualificationData {
  chief_complaint : Py.val;
  pain_level : option PainLevel.t;
  urgency : UrgencyField;
  insurance_provider : Py.val;
  preferred_appointment_time : Py.val;
  last_dental_visit : Py.val;
  current_medications : Py.val;
  allergies : Py.val;
  emergency_indicators : Py.val;
}.

(** [QualificationData()] with every default. *)
Definition QualificationData_new : QualificationData := {|
  chief_complaint := Py.VNone;
  pain_level := None;
  urgency := Urgency UrgencyLevel.LOW;
  insurance_provider := Py.VNone;
  preferred_appointment_time := Py.VNone;
  last_dental_visit := Py.VNone;
  current_medications := Py.VList [];
  allergies := Py.VList [];
  emergency_indicators := Py.VList [];
|}.

(** [bool(p)] for an optional enum member: [None] is false, a member is a
    [str] and so is true exactly when its value is not empty. *)
Definition truthy_pain_level (p : option PainLevel.t) : bool :=
  match p with
  | None => false
  | Some l => negb (String.eqb (PainLevel.value l) "")
  end.

(** [(v or "").lower()] *)
Definition or_empty_lower (v : Py.val) : Result string :=
  if Py.truthy v then
    match v with
    | Py.VStr s => Ok (Py.lower s)
    | _ => Raise AttributeError
    end
  else Ok (Py.lower "").

(** [len(v)] *)
Definition len (v : Py.val) : Result Z :=
  match v with
  | Py.VStr s => Ok (Z.of_nat (String.length s))
  | Py.VList l => Ok (Z.of_nat (length l))
  | Py.VDict d => Ok (Z.of_nat (length d))
  | _ => Raise TypeError
  end.

(** [QualificationData.requires_escalation]: the six conditions are
    evaluated into a list, in order, before [any] looks at them. *)
Definition requires_escalation (self : QualificationData) : Result bool :=
  let c1 := bool_decide (pain_level self = Some PainLevel.EMERGENCY) in
  c2 ← Py.contains "swelling" <$> or_empty_lower (chief_complaint self);
  c3 ← Py.contains "fever" <$> or_empty_lower (chief_complaint self);
  c4 ← Py.contains "trauma" <$> or_empty_lower (chief_complaint self);
  c5 ← Py.contains "bleeding" <$> or_empty_lower (chief_complaint self);
  n ← len (emergency_indicators self);
  let c6 := 0 <? n in
  mret (existsb id [c1; c2; c3; c4; c5; c6]).

(** [class ConversationTurn(BaseModel)].  The timestamp is the clock value
    (an integer) and the confidence score the decimal it is written as. *)
Record ConversationTurn : Type := mkConversationTurn {
  timestamp : Z;
  speaker : string;
  message : string;
  audio_url : option string;
  confidence_score : option Q;
}.

(** ** The collaborators of [AIService] and the state it runs in *)

(** The content of a chat message.  The f-string prompts are kept as their
    template together with the values interpolated into it. *)
Inductive Prompt : Type :=
  | SystemPrompt                       (* [self.system_prompt] *)
  | Literal (text : string)
  | ExtractionPrompt (user_input : string) (current_data : QualificationData)
  | NextQuestionPrompt (missing_data : list string) (conversation_text : string)
                       (qualification_data : QualificationData).

(** The arguments of [openai_client.chat.completions.create]. *)
Record ChatRequest : Type := mkChatRequest {
  model : string;
  messages : list (string * Prompt);   (* role, content *)
  max_tokens : Z;
  temperature : Q;
}.

(** What the code cannot decide: the language model, the JSON parser, the
    clock, and the attributes pydantic gives a model object besides its
    fields.  [chat_completions_create n req] is the outcome of the [n]-th
    call of the process (a reply is the list of the contents of its
    choices, a content may be [None]).  [other_attribute key] says that the
    object has an attribute [key] that is no field (a method, a dunder name,
    a pydantic internal), and [assign_attribute key value] is what
    [setattr(obj, key, value)] does for such a name: it raises, or it
    stores the value where the code never reads it ([Ok]). *)
Record Env : Type := mkEnv {
  chat_completions_create : nat -> ChatRequest -> Result (list (option string));
  json_loads : string -> Result Py.val;
  utcnow : nat -> Z;
  other_attribute : string -> bool;
  assign_attribute : string -> Py.val -> Result unit;
}.

(** The dict kept per lead: [{"conversation_history": [...],
    "qualification_data": ..., "turn_count": ...}].  The list and the
    [QualificationData] object are reachable through this dict only, so they
    are stored in it by value. *)
Record SessionContext : Type := mkSessionContext {
  conversation_history : list ConversationTurn;
  qualification_data : QualificationData;
  turn_count : Z;
}.

#[global] Instance SessionContext_inhabited : Inhabited SessionContext :=
  populate (mkSessionContext [] QualificationData_new 0).

Definition loc : Type := nat.

(** The result of [_check_escalation_conditions]: [{"escalate": False}] or
    [{"escalate": True, "reason": ..., "message": ...}]. *)
Inductive EscalationCheck : Type :=
  | NoEscalation
  | EscalateNow (reason message : string).

Definition escalate (c : EscalationCheck) : bool :=
  match c with NoEscalation => false | EscalateNow _ _ => true end.

(** What a run leaves behind besides the sessions: the calls of the model,
    the reads of the clock, the records logged, and the calls of the three
    components (with what the evaluator answered). *)
Inductive Event : Type :=
  | ModelCall (req : ChatRequest)
  | ClockRead
  | LogError (text : string) (e : exn)
  | CallExtractor
  | CallEvaluator (answer : EscalationCheck)
  | CallGenerator.

Record World : Type := mkWorld {
  active_sessions : gmap string loc;     (* [self.active_sessions] *)
  heap : gmap loc SessionContext;        (* the dict objects *)
  events : list Event;                   (* oldest first *)
}.

Definition set_active_sessions (f : gmap string loc -> gmap string loc) (w : World) : World :=
  mkWorld (f (active_sessions w)) (heap w) (events w).
Definition set_heap (f : gmap loc SessionContext -> gmap loc SessionContext) (w : World) : World :=
  mkWorld (active_sessions w) (f (heap w)) (events w).
Definition add_events (d : list Event) (w : World) : World :=
  mkWorld (active_sessions w) (heap w) (events w ++ d).

Definition empty_world : World := mkWorld ∅ ∅ [].

(** The session stored for a lead, as a reader of [active_sessions] sees it. *)
Definition stored_session (w : World) (lead_id : string) : option SessionContext :=
  l ← active_sessions w !! lead_id; heap w !! l.

(** ** The monad: state, and exceptions that keep the state *)

Definition M (A : Type) : Type := World -> Result A * World.

#[global] Instance M_ret : MRet M := fun A a w => (Ok a, w).
#[global] Instance M_bind : MBind M := fun A B f m w =>
  match m w with
  | (Ok a, w') => f a w'
  | (Raise e, w') => (Raise e, w')
  end.

Definition raise {A} (e : exn) : M A := fun w => (Raise e, w).

Definition lift {A} (r : Result A) : M A := fun w => (r, w).

(** [try: body except Exception as e: handler e] *)
Definition try_except {A} (body : M A) (handler : exn -> M A) : M A := fun w =>
  match body w with
  | (Ok a, w') => (Ok a, w')
  | (Raise e, w') => handler e w'
  end.

Definition emit (e : Event) : M unit := fun w => (Ok (), add_events [e] w).

(** [logger.error(f"{text}: {e}")] *)
Definition logger_error (text : string) (e : exn) : M unit := emit (LogError text e).

Definition is_model_call (e : Event) : bool :=
  match e with ModelCall _ => true | _ => false end.
Definition is_clock_read (e : Event) : bool :=
  match e with ClockRead => true | _ => false end.

(** A new dict object. *)
Definition alloc (d : SessionContext) : M loc := fun w =>
  let l := fresh (dom (heap w)) in (Ok l, set_heap (insert l d) w).

(** The dict at [l].  A location that holds no dict reads as a new
    session; the locations a run reads are allocated. *)
Definition load (l : loc) : M SessionContext := fun w => (Ok (heap w !!! l), w).

(** An update in place of the dict at [l]. *)
Definition modify (l : loc) (f : SessionContext -> SessionContext) : M unit := fun w =>
  (Ok (), set_heap (insert l (f (heap w !!! l))) w).

Section Service.

Context (env : Env).

(** [await self.openai_client.chat.completions.create(...)] *)
Definition create (req : ChatRequest) : M (list (option string)) := fun w =>
  (chat_completions_create env (length (filter is_model_call (events w))) req,
   add_events [ModelCall req] w).

(** [datetime.utcnow()] *)
Definition now : M Z := fun w =>
  (Ok (utcnow env (length (filter is_clock_read (events w)))), add_events [ClockRead] w).

(** [ConversationTurn(speaker=..., message=..., confidence_score=...)]: the
    default factory of [timestamp] reads the clock, and validation rejects a
    [message] that is [None]. *)
Definition ConversationTurn_new (speaker : string) (message : option string)
    (confidence_score : option Q) : M ConversationTurn :=
  timestamp ← now;
  match message with
  | None => raise ValidationError
  | Some message => mret (mkConversationTurn timestamp speaker message None confidence_score)
  end.

(** [response.choices[0].message.content] *)
Definition first_content (choices : list (option string)) : Result (option string) :=
  match choices with
  | [] => Raise IndexError
  | content :: _ => Ok content
  end.

(** ** [src/services/ai_service.py] *)

(** [AIService._normalize_pain_level] *)
Definition _normalize_pain_level (pain_input : Py.val) : option PainLevel.t :=
  let pain_str := Py.lower (Py.str pain_input) in
  (* Direct number matches *)
  if Py.any_in ["9"; "10"] pain_str then Some PainLevel.EMERGENCY
  else if Py.any_in ["7"; "8"] pain_str then Some PainLevel.SEVERE
  else if Py.any_in ["4"; "5"; "6"] pain_str then Some PainLevel.MODERATE
  else if Py.any_in ["1"; "2"; "3"] pain_str then Some PainLevel.MILD
  else if Py.contains "0" pain_str || Py.contains "no pain" pain_str then Some PainLevel.NONE
  (* Descriptive matches *)
  else if Py.any_in ["excruciating"; "unbearable"; "severe"] pain_str then Some PainLevel.SEVERE
  else if Py.any_in ["moderate"; "strong"; "significant"] pain_str then Some PainLevel.MODERATE
  else if Py.any_in ["mild"; "slight"; "minor"] pain_str then Some PainLevel.MILD
  else if Py.any_in ["none"; "no"; "nothing"] pain_str then Some PainLevel.NONE
  else None.

(** [AIService._calculate_urgency] *)
Definition _calculate_urgency (data : QualificationData) : UrgencyLevel.t :=
  if bool_decide (pain_level data = Some PainLevel.EMERGENCY) then UrgencyLevel.EMERGENCY
  else if bool_decide (pain_level data = Some PainLevel.SEVERE) then UrgencyLevel.HIGH
  else if bool_decide (pain_level data = Some PainLevel.MODERATE) then UrgencyLevel.MEDIUM
  else UrgencyLevel.LOW.

Definition emergency_keywords : list string :=
  [ "can't breathe"; "difficulty breathing"; "swelling in throat";
    "severe bleeding"; "won't stop bleeding"; "facial swelling";
    "fever"; "infection"; "abscess"; "trauma"; "accident";
    "knocked out"; "allergic reaction" ].

(** The [for keyword in emergency_keywords] loop: the first keyword found
    in [user_lower] returns. *)
Fixpoint scan_keywords (keywords : list string) (user_lower : string) : EscalationCheck :=
  match keywords with
  | [] => NoEscalation
  | keyword :: rest =>
      if Py.contains keyword user_lower
      then EscalateNow "emergency_condition"
             "This sounds like it needs immediate attention. I'm connecting you with our emergency dental team right now."
      else scan_keywords rest user_lower
  end.

(** [AIService._check_escalation_conditions] *)
Definition _check_escalation_conditions (user_input : string)
    (qualification_data : QualificationData) : EscalationCheck :=
  let user_lower := Py.lower user_input in
  (* Emergency pain levels *)
  if bool_decide (pain_level qualification_data = Some PainLevel.EMERGENCY)
  then EscalateNow "severe_pain"
         "I understand you're in severe pain. Let me connect you immediately with our emergency dental line."
  (* Emergency keywords *)
  else scan_keywords emergency_keywords user_lower.

(** [AIService._identify_missing_data] *)
Definition _identify_missing_data (qualification_data : QualificationData) : list string :=
  (if negb (Py.truthy (chief_complaint qualification_data)) then ["chief_complaint"] else [])
  ++ (if negb (truthy_pain_level (pain_level qualification_data)) then ["pain_level"] else [])
  ++ (if negb (Py.truthy (insurance_provider qualification_data)) then ["insurance_provider"] else [])
  ++ (if negb (Py.truthy (preferred_appointment_time qualification_data))
      then ["preferred_appointment_time"] else []).

(** The names of the fields of [QualificationData]. *)
Definition field_names : list string :=
  [ "chief_complaint"; "pain_level"; "urgency"; "insurance_provider";
    "preferred_appointment_time"; "last_dental_visit"; "current_medications";
    "allergies"; "emergency_indicators" ].

(** [hasattr(current_data, key)]: a field, or another attribute of the
    object (a method, a pydantic internal). *)
Definition hasattr (key : string) : bool :=
  bool_decide (key ∈ field_names) || other_attribute env key.

Definition set_pain_level (p : option PainLevel.t) (d : QualificationData) : QualificationData :=
  mkQualificationData (chief_complaint d) p (urgency d) (insurance_provider d)
    (preferred_appointment_time d) (last_dental_visit d) (current_medications d)
    (allergies d) (emergency_indicators d).

Definition set_urgency (u : UrgencyField) (d : QualificationData) : QualificationData :=
  mkQualificationData (chief_complaint d) (pain_level d) u (insurance_provider d)
    (preferred_appointment_time d) (last_dental_visit d) (current_medications d)
    (allergies d) (emergency_indicators d).

(** [setattr(current_data, key, value)] for a [key] other than
    ["pain_level"]: pydantic stores the value of a field as it is; for a
    name that is no field it raises, or hands the name to
    [object.__setattr__], as the environment says, and no field changes. *)
Definition setattr (d : QualificationData) (key : string) (value : Py.val)
    : Result QualificationData :=
  if String.eqb key "chief_complaint" then
    Ok (mkQualificationData value (pain_level d) (urgency d) (insurance_provider d)
          (preferred_appointment_time d) (last_dental_visit d) (current_medications d)
          (allergies d) (emergency_indicators d))
  else if String.eqb key "urgency" then Ok (set_urgency (UrgencyRaw value) d)
  else if String.eqb key "insurance_provider" then
    Ok (mkQualificationData (chief_complaint d) (pain_level d) (urgency d) value
          (preferred_appointment_time d) (last_dental_visit d) (current_medications d)
          (allergies d) (emergency_indicators d))
  else if String.eqb key "preferred_appointment_time" then
    Ok (mkQualificationData (chief_complaint d) (pain_level d) (urgency d)
          (insurance_provider d) value (last_dental_visit d) (current_medications d)
          (allergies d) (emergency_indicators d))
  else if String.eqb key "last_dental_visit" then
    Ok (mkQualificationData (chief_complaint d) (pain_level d) (urgency d)
          (insurance_provider d) (preferred_appointment_time d) value
          (current_medications d) (allergies d) (emergency_indicators d))
  else if String.eqb key "current_medications" then
    Ok (mkQualificationData (chief_complaint d) (pain_level d) (urgency d)
          (insurance_provider d) (preferred_appointment_time d) (last_dental_visit d)
          value (allergies d) (emergency_indicators d))
  else if String.eqb key "allergies" then
    Ok (mkQualificationData (chief_complaint d) (pain_level d) (urgency d)
          (insurance_provider d) (preferred_appointment_time d) (last_dental_visit d)
          (current_medications d) value (emergency_indicators d))
  else if String.eqb key "emergency_indicators" then
    Ok (mkQualificationData (chief_complaint d) (pain_level d) (urgency d)
          (insurance_provider d) (preferred_appointment_time d) (last_dental_visit d)
          (current_medications d) (allergies d) value)
  else
    match assign_attribute env key value with
    | Ok _ => Ok d
    | Raise e => Raise e
    end.

(** The loop [for key, value in extracted.items()] on the object
    [current_data].  It returns the object as the loop left it, also when an
    assignment raised. *)
Fixpoint apply_items (items : list (string * Py.val)) (current_data : QualificationData)
    : Result unit * QualificationData :=
  match items with
  | [] => (Ok (), current_data)
  | (key, value) :: rest =>
      if Py.truthy value && hasattr key then
        if String.eqb key "pain_level" then
          apply_items rest (set_pain_level (_normalize_pain_level value) current_data)
        else
          match setattr current_data key value with
          | Ok current_data => apply_items rest current_data
          | Raise e => (Raise e, current_data)
          end
      else apply_items rest current_data
  end.

(** [json.loads(content)]: [None] is no string. *)
Definition loads (content : option string) : Result Py.val :=
  match content with
  | None => Raise TypeError
  | Some text => json_loads env text
  end.

(** [extracted.items()] *)
Definition items_of (extracted : Py.val) : Result (list (string * Py.val)) :=
  match extracted with
  | Py.VDict items => Ok items
  | _ => Raise AttributeError
  end.

Definition extraction_request (user_input : string) (current_data : QualificationData)
    : ChatRequest := {|
  model := "gpt-4";
  messages :=
    [ ("system", Literal "You are a data extraction assistant. Return only valid JSON.");
      ("user", ExtractionPrompt user_input current_data) ];
  max_tokens := 200;
  temperature := (1 # 10)%Q;
|}.

(** [AIService._extract_qualification_data].  [current_data] is one object,
    mutated in place and returned on both exits; here each assignment
    rebinds it, and an exception of the loop goes to the handler with the
    object as the loop left it.  The first step records the call among the
    events. *)
Definition _extract_qualification_data (user_input : string)
    (current_data : QualificationData) : M QualificationData :=
  emit CallExtractor;;
  try_except
    ((* Use LLM to extract structured data *)
     response ← create (extraction_request user_input current_data);
     extracted ← lift (first_content response ≫= loads);
     items ← lift (items_of extracted);
     (* Update current data with extracted information *)
     let '(looped, current_data) := apply_items items current_data in
     match looped with
     | Raise e =>
         logger_error "Error extracting qualification data" e;;
         mret current_data
     | Ok _ =>
         (* Update urgency based on pain level and other factors *)
         mret (set_urgency (Urgency (_calculate_urgency current_data)) current_data)
     end)
    (fun e =>
       logger_error "Error extracting qualification data" e;;
       mret current_data).

(** The dict [_generate_ai_response] returns; the key
    ["appointment_scheduled"] is absent from the reply that continues. *)
Record AiResponse : Type := mkAiResponse {
  ai_message : string;
  ai_complete : bool;
  ai_appointment_scheduled : option bool;
}.

Definition newline : string := String "010"%char "".

Definition next_question_request (missing_data : list string) (conversation_text : string)
    (qualification_data : QualificationData) : ChatRequest := {|
  model := "gpt-4";
  messages :=
    [ ("system", SystemPrompt);
      ("user", NextQuestionPrompt missing_data conversation_text qualification_data) ];
  max_tokens := 100;
  temperature := (7 # 10)%Q;
|}.

(** [content.strip()] *)
Definition strip_content (content : option string) : Result string :=
  match content with
  | None => Raise AttributeError
  | Some text => Ok (Py.strip text)
  end.

(** [AIService._generate_ai_response].  The first step records the call
    among the events. *)
Definition _generate_ai_response (conversation_history : list ConversationTurn)
    (qualification_data : QualificationData) (turn_count : Z) : M AiResponse :=
  emit CallGenerator;;
  try_except
    ((* Build conversation context: last 6 turns *)
     let conversation_text :=
       Py.join newline
         (map (fun turn => speaker turn +:+ ": " +:+ message turn)
              (Py.last_n 6 conversation_history)) in
     (* Determine conversation stage and next action *)
     let missing_data := _identify_missing_data qualification_data in
     if (10 <=? turn_count) || bool_decide (missing_data = []) then
       (* Conversation should conclude *)
       if Py.truthy (chief_complaint qualification_data)
          && truthy_pain_level (pain_level qualification_data)
       then mret {|
         ai_message := "Thank you for all that information. Based on what you've shared, I'd like to schedule you for an appointment. Let me connect you with our scheduling team.";
         ai_complete := true;
         ai_appointment_scheduled := Some true |}
       else mret {|
         ai_message := "Thank you for your time. I'll have one of our team members follow up with you to discuss your dental needs in more detail.";
         ai_complete := true;
         ai_appointment_scheduled := Some false |}
     else
       (* Generate next question based on missing data *)
       response ← create (next_question_request missing_data conversation_text
                            qualification_data);
       text ← lift (first_content response ≫= strip_content);
       mret {| ai_message := text; ai_complete := false;
               ai_appointment_scheduled := None |})
    (fun e =>
       logger_error "Error generating AI response" e;;
       mret {|
         ai_message := "Let me connect you with one of our team members who can better assist you.";
         ai_complete := true;
         ai_appointment_scheduled := Some false |}).

(** The dict [process_conversation_turn] returns, by the keys it has. *)
Inductive TurnResult : Type :=
  | Escalate (escalation_reason response : string)
  | Complete (response : string) (data : QualificationData) (appointment_scheduled : bool)
  | Continue (response : string) (data : QualificationData).

Definition append_turn (turn : ConversationTurn) (c : SessionContext) : SessionContext :=
  mkSessionContext (conversation_history c ++ [turn]) (qualification_data c) (turn_count c).
Definition incr_turn_count (c : SessionContext) : SessionContext :=
  mkSessionContext (conversation_history c) (qualification_data c) (turn_count c + 1).
Definition set_qualification_data (d : QualificationData) (c : SessionContext) : SessionContext :=
  mkSessionContext (conversation_history c) d (turn_count c).

(** [self.active_sessions.get(lead_id, default)] *)
Definition sessions_get (lead_id : string) (default : loc) : M loc := fun w =>
  (Ok (from_option id default (active_sessions w !! lead_id)), w).

(** [self.active_sessions[lead_id] = session_context] *)
Definition sessions_set (lead_id : string) (session_context : loc) : M unit := fun w =>
  (Ok (), set_active_sessions (insert lead_id session_context) w).

(** The [try] block of [AIService.process_conversation_turn].  The default
    of [get] is built before the lookup, as Python evaluates arguments; past
    the validation of the user turn, [user_speech] is the string that the
    turn holds; the answer of the evaluator is recorded among the events. *)
Definition process_conversation_turn_body (lead_id : string) (user_speech : option string)
    (call_sid : string) : M TurnResult :=
  (* Get or create session context *)
  fresh_context ← alloc (mkSessionContext [] QualificationData_new 0);
  session_context ← sessions_get lead_id fresh_context;
  (* Add user input to conversation history *)
  user_turn ← ConversationTurn_new "user" user_speech (Some (95 # 100)%Q);
  let user_speech := message user_turn in
  modify session_context (append_turn user_turn);;
  modify session_context incr_turn_count;;
  (* Analyze user input for qualification data *)
  current ← load session_context;
  extracted_data ← _extract_qualification_data user_speech (qualification_data current);
  modify session_context (set_qualification_data extracted_data);;
  (* Check for escalation conditions *)
  let escalation_check := _check_escalation_conditions user_speech extracted_data in
  emit (CallEvaluator escalation_check);;
  match escalation_check with
  | EscalateNow reason message => mret (Escalate reason message)
  | NoEscalation =>
      (* Generate AI response *)
      current ← load session_context;
      ai_response ← _generate_ai_response (conversation_history current)
                      (qualification_data current) (turn_count current);
      (* Add AI response to history *)
      ai_turn ← ConversationTurn_new "assistant" (Some (ai_message ai_response)) None;
      modify session_context (append_turn ai_turn);;
      (* Update session *)
      sessions_set lead_id session_context;;
      (* Check if conversation is complete *)
      current ← load session_context;
      if ai_complete ai_response then
        mret (Complete (ai_message ai_response) (qualification_data current)
                (default false (ai_appointment_scheduled ai_response)))
      else
        mret (Continue (ai_message ai_response) (qualification_data current))
  end.

(** [AIService.process_conversation_turn] *)
Definition process_conversation_turn (lead_id : string) (user_speech : option string)
    (call_sid : string) : M TurnResult :=
  try_except
    (process_conversation_turn_body lead_id user_speech call_sid)
    (fun e =>
       logger_error "Error processing conversation turn" e;;
       mret (Escalate "technical_error"
               "I'm experiencing technical difficulties. Let me connect you with a team member.")).

(** [AIService.cleanup_session] *)
Definition cleanup_session (lead_id : string) : M unit := fun w =>
  if bool_decide (is_Some (active_sessions w !! lead_id))
  then (Ok (), set_active_sessions (delete lead_id) w)
  else (Ok (), w).

(** The dict [get_session_summary] returns. *)
Record SessionSummary : Type := mkSessionSummary {
  summary_qualification_data : QualificationData;
  conversation_length : Z;
  summary_turn_count : Z;
}.

(** [AIService.get_session_summary]; a session dict has three keys and so
    is never an empty, false dict. *)
Definition get_session_summary (lead_id : string) : M (option SessionSummary) := fun w =>
  match active_sessions w !! lead_id with
  | None => (Ok None, w)
  | Some l =>
      let session := heap w !!! l in
      (Ok (Some (mkSessionSummary (qualification_data session)
                   (Z.of_nat (length (conversation_history session)))
                   (turn_count session))), w)
  end.

End Service.

(** ** Environments to run the model on *)

(** Three attributes of the data object that are no fields, the methods
    [dict] and [json] and the docstring, and what assigning to them does:
    pydantic refuses the public names, [object.__setattr__] takes the
    other. *)
Definition sample_attribute (key : string) : bool :=
  String.eqb key "dict" || String.eqb key "json" || String.eqb key "__doc__".

Definition sample_assign (key : string) (value : Py.val) : Result unit :=
  if String.eqb key "__doc__" then Ok () else Raise ValueError.

(** The model is unreachable and nothing parses. *)
Definition outage_env : Env := {|
  chat_completions_create := fun _ _ => Raise (OtherError "APIConnectionError");
  json_loads := fun _ => Raise (OtherError "JSONDecodeError");
  utcnow := fun n => Z.of_nat n;
  other_attribute := sample_attribute;
  assign_attribute := sample_assign;
|}.

(** The text [{"pain_level": "awful"}]. *)
Definition awful_json : string :=
  "{" +:+ String Py.dquote "pain_level" +:+ String Py.dquote ": "
      +:+ String Py.dquote "awful" +:+ String Py.dquote "}".

(** A model that answers every call with [reply], and a parser that knows
    the one JSON text above. *)
Definition constant_env (reply : string) : Env := {|
  chat_completions_create := fun _ _ => Ok [Some reply];
  json_loads := fun text =>
    if String.eqb text awful_json
    then Ok (Py.VDict [("pain_level", Py.VStr "awful")])
    else Raise (OtherError "JSONDecodeError");
  utcnow := fun n => Z.of_nat n;
  other_attribute := sample_attribute;
  assign_attribute := sample_assign;
|}.

Definition breath_utterance : string := "I can't breathe and there's facial swelling".

(** The part of a check or of a turn result that the claims name. *)
Definition reason_of (c : EscalationCheck) : option string :=
  match c with NoEscalation => None | EscalateNow reason _ => Some reason end.

Definition is_escalate (r : TurnResult) : bool :=
  match r with Escalate _ _ => true | _ => false end.

(** The qualification data a turn returns, on the outcomes that have it. *)
Definition data_of (r : TurnResult) : option QualificationData :=
  match r with
  | Escalate _ _ => None
  | Complete _ data _ | Continue _ data => Some data
  end.

(** An item of a reply that the loop of the extractor assigns to a field or
    passes over: its key is a field, or no attribute of the object at all. *)
Definition plain_item (env : Env) (item : string * Py.val) : Prop :=
  item.1 ∈ field_names \/ other_attribute env item.1 = false.

(** The chief complaint has none of the four words [requires_escalation]
    looks for, and the utterance one of the keywords of the evaluator. *)
Definition complaint_is_clear (data : QualificationData) : Prop :=
  chief_complaint data = Py.VNone
  \/ exists complaint,
       chief_complaint data = Py.VStr complaint
       /\ Forall (fun word => Py.contains word (Py.lower complaint) = false)
                 ["swelling"; "fever"; "trauma"; "bleeding"].

Definition has_keyword (utterance : string) : Prop :=
  Exists (fun keyword => Py.contains keyword (Py.lower utterance) = true) emergency_keywords.

(** The events a run added to the ones of the world it started in. *)
Definition events_since (w w' : World) : list Event :=
  drop (length (events w)) (events w').

(** The fixed messages of the response generator. *)
Definition scheduling_message : string :=
  "Thank you for all that information. Based on what you've shared, I'd like to schedule you for an appointment. Let me connect you with our scheduling team.".
Definition follow_up_message : string :=
  "Thank you for your time. I'll have one of our team members follow up with you to discuss your dental needs in more detail.".
Definition handoff_message : string :=
  "Let me connect you with one of our team members who can better assist you.".


(** The dict a first turn starts from, and the session a turn starts from:
    the stored one, or a new one. *)
Definition new_session : SessionContext := mkSessionContext [] QualificationData_new 0.

Definition session_before (w : World) (lead_id : string) : SessionContext :=
  from_option id new_session (stored_session w lead_id).

(** The object a turn works on: the stored dict, or a new one. *)
Definition session_loc (w : World) (lead_id : string) : loc :=
  from_option id (fresh (dom (heap w))) (active_sessions w !! lead_id).

(** A world with one stored session. *)
Definition world_with (lead_id : string) (session : SessionContext) : World :=
  mkWorld {[ lead_id := 0%nat ]} {[ 0%nat := session ]} [].

Definition response_of (r : TurnResult) : string :=
  match r with
  | Escalate _ response | Complete response _ _ | Continue response _ => response
  end.

Definition is_component_call (ev : Event) : bool :=
  match ev with
  | CallExtractor | CallEvaluator _ | CallGenerator => true
  | _ => false
  end.

(** The fixed message of the orchestrator's handler. *)
Definition technical_message : string :=
  "I'm experiencing technical difficulties. Let me connect you with a team member.".

Definition is_log_error (ev : Event) : bool :=
  match ev with LogError _ _ => true | _ => false end.

(** Events that are neither the call of a component nor a read of the
    clock: calls of the model and log records. *)
Definition quiet (evs : list Event) : Prop :=
  Forall (fun ev => is_component_call ev = false /\ is_clock_read ev = false) evs.

(** A session of a lead whose pain was recorded as severe. *)
Definition severe_session : SessionContext :=
  mkSessionContext []
    (set_urgency (Urgency UrgencyLevel.HIGH) (set_pain_level (Some PainLevel.SEVERE) QualificationData_new)) 0.

(** The pain level of the session stored for a lead, if there is one. *)
Definition stored_pain_level (w : World) (lead_id : string) : option (option PainLevel.t) :=
  (fun session => pain_level (qualification_data session)) <$> stored_session w lead_id.

(** A field that [setattr] writes is either still [None] or a true value:
    so is every required field of a session that started as
    [QualificationData()], and "set" then means the same as "true". *)
Definition none_or_true (v : Py.val) : Prop := v = Py.VNone \/ Py.truthy v = true.

Definition required_fields_none_or_true (d : QualificationData) : Prop :=
  none_or_true (chief_complaint d)
  /\ none_or_true (insurance_provider d)
  /\ none_or_true (preferred_appointment_time d).

(** The sessions of a world are well formed when every stored location is
    allocated and no two leads share a dict. *)
Definition sessions_wf (w : World) : Prop :=
  (forall lead_id l, active_sessions w !! lead_id = Some l -> is_Some (heap w !! l))
  /\ (forall lead1 lead2 l,
        active_sessions w !! lead1 = Some l -> active_sessions w !! lead2 = Some l ->
        lead1 = lead2).

(** ** More of [src/services/ai_service.py] *)

Section FirstQuestion.

Context (env : Env).

Definition first_question_request : ChatRequest := {|
  model := "gpt-4";
  messages :=
    [ ("system", SystemPrompt);
      ("user", Literal "Start the dental qualification conversation. Ask about their dental concern.") ];
  max_tokens := 100;
  temperature := (7 # 10)%Q;
|}.

Definition first_question_fallback : string :=
  "What brings you to Premier Dental today? Are you experiencing any dental pain or discomfort?".

(** [AIService.generate_first_question] *)
Definition generate_first_question (lead_id : string) : M string :=
  try_except
    (response ← create env first_question_request;
     lift (first_content response ≫= strip_content))
    (fun e =>
       logger_error "Error generating first question" e;;
       mret first_question_fallback).

End FirstQuestion.

(** A character is a decimal digit; [\d] of a [str] pattern matches these
    and no other character below 256. *)
Definition is_digit (c : ascii) : bool :=
  let n := N_of_ascii c in ((48 <=? n) && (n <=? 57))%N.

(** Data as its declared types have it: the chief complaint a string or
    [None], the emergency indicators a list. *)
Definition typed_complaint (d : QualificationData) : Prop :=
  chief_complaint d = Py.VNone \/ exists s, chief_complaint d = Py.VStr s.

(** ** [src/services/dnc_service.py] *)

(** The records a service logs, by level; an error record keeps the
    exception it formats. *)
Inductive LogRecord : Type :=
  | LogInfo (text : string)
  | LogWarning (text : string)
  | LogFailure (text : string) (e : exn).

(** [re.sub(r'[^\d]', '', s)] *)
Fixpoint keep_digits (s : string) : string :=
  match s with
  | EmptyString => EmptyString
  | String c s' => if is_digit c then String c (keep_digits s') else keep_digits s'
  end.

(** [DNCService._normalize_phone_number]; [re.sub] raises [TypeError] on
    what is no string. *)
Definition _normalize_phone_number (phone : Py.val) : Result string :=
  match phone with
  | Py.VStr phone =>
      let digits_only := keep_digits phone in
      if (String.length digits_only =? 10)%nat
      then Ok ("1" +:+ digits_only)
      else Ok digits_only
  | _ => Raise TypeError
  end.

(** The state of a [DNCService]: [self.dnc_set], and what it logged. *)
Record DNCService : Type := mkDNCService {
  dnc_set : gset string;
  dnc_log : list LogRecord;
}.

Definition DNCService_new : DNCService := mkDNCService ∅ [].

Definition dnc_logged (r : LogRecord) (s : DNCService) : DNCService :=
  mkDNCService (dnc_set s) (dnc_log s ++ [r]).

(** [DNCService.check_dnc_status] *)
Definition check_dnc_status (phone_number : Py.val) (s : DNCService) : bool * DNCService :=
  match _normalize_phone_number phone_number with
  | Ok normalized_phone =>
      let is_dnc := bool_decide (normalized_phone ∈ dnc_set s) in
      (is_dnc,
       dnc_logged
         (LogInfo ("DNC check for " +:+ Py.str phone_number +:+ " (" +:+ normalized_phone
                   +:+ "): " +:+ (if is_dnc then "DNC" else "OK")))
         s)
  | Raise e =>
      (* Fail safe - if we can't check DNC, assume it's on the list *)
      (true,
       dnc_logged (LogFailure ("Error checking DNC status for " +:+ Py.str phone_number) e) s)
  end.

(** [DNCService.add_to_dnc_list] *)
Definition add_to_dnc_list (phone_number : Py.val) (s : DNCService) : bool * DNCService :=
  match _normalize_phone_number phone_number with
  | Ok normalized_phone =>
      (true,
       dnc_logged
         (LogInfo ("Added " +:+ Py.str phone_number +:+ " (" +:+ normalized_phone
                   +:+ ") to DNC list"))
         (mkDNCService ({[ normalized_phone ]} ∪ dnc_set s) (dnc_log s)))
  | Raise e =>
      (false,
       dnc_logged
         (LogFailure ("Error adding " +:+ Py.str phone_number +:+ " to DNC list") e) s)
  end.

(** [DNCService.remove_from_dnc_list] *)
Definition remove_from_dnc_list (phone_number : Py.val) (s : DNCService)
    : bool * DNCService :=
  match _normalize_phone_number phone_number with
  | Ok normalized_phone =>
      if bool_decide (normalized_phone ∈ dnc_set s) then
        (true,
         dnc_logged
           (LogInfo ("Removed " +:+ Py.str phone_number +:+ " (" +:+ normalized_phone
                     +:+ ") from DNC list"))
           (mkDNCService (dnc_set s ∖ {[ normalized_phone ]}) (dnc_log s)))
      else
        (* Consider it success if already not on list *)
        (true,
         dnc_logged
           (LogWarning ("Phone number " +:+ Py.str phone_number +:+ " not found in DNC list"))
           s)
  | Raise e =>
      (false,
       dnc_logged
         (LogFailure ("Error removing " +:+ Py.str phone_number +:+ " from DNC list") e) s)
  end.

(** The loop of [bulk_add_to_dnc_list]: it stops at the first number that
    raises, with the numbers before it added. *)
Fixpoint bulk_add_loop (phone_numbers : list Py.val) (set : gset string)
    : Result unit * gset string :=
  match phone_numbers with
  | [] => (Ok (), set)
  | phone :: rest =>
      match _normalize_phone_number phone with
      | Ok normalized_phone => bulk_add_loop rest ({[ normalized_phone ]} ∪ set)
      | Raise e => (Raise e, set)
      end
  end.

(** [DNCService.bulk_add_to_dnc_list] *)
Definition bulk_add_to_dnc_list (phone_numbers : list Py.val) (s : DNCService)
    : bool * DNCService :=
  match bulk_add_loop phone_numbers (dnc_set s) with
  | (Ok _, set) =>
      (true,
       mkDNCService set
         (dnc_log s
          ++ [LogInfo ("Added " +:+ Py.str_of_int (Z.of_nat (length phone_numbers))
                       +:+ " numbers to DNC list")]))
  | (Raise e, set) =>
      (false, mkDNCService set (dnc_log s ++ [LogFailure "Error bulk adding to DNC list" e]))
  end.

(** [DNCService.get_dnc_count] *)
Definition get_dnc_count (s : DNCService) : Z := Z.of_nat (size (dnc_set s)).

(** ** Vocabulary of the statements that follow *)

(** The text [requires_escalation] searches: the chief complaint, or the
    empty string when there is none. *)
Definition complaint_text (d : QualificationData) : string :=
  match chief_complaint d with
  | Py.VStr s => s
  | _ => ""
  end.

(** What the extractor makes of the reply of the model: the items of the
    JSON object in the first choice, or the exception met on the way. *)
Definition extracted_items (env : Env) (reply : Result (list (option string)))
    : Result (list (string * Py.val)) :=
  response ← reply;
  content ← first_content response;
  extracted ← loads env content;
  items_of extracted.

(** A model that answers every call with [text], and a parser that reads
    [text] as [parsed] and knows no other text. *)
Definition stub_env (text : string) (parsed : Py.val) : Env := {|
  chat_completions_create := fun _ _ => Ok [Some text];
  json_loads := fun t =>
    if String.eqb t text then Ok parsed else Raise (OtherError "JSONDecodeError");
  utcnow := fun n => Z.of_nat n;
  other_attribute := sample_attribute;
  assign_attribute := sample_assign;
|}.

(** The text [{"urgency": "emergency", "chief_complaint": "toothache"}]. *)
Definition urgency_json : string :=
  "{" +:+ String Py.dquote "urgency" +:+ String Py.dquote ": "
      +:+ String Py.dquote "emergency" +:+ String Py.dquote ", "
      +:+ String Py.dquote "chief_complaint" +:+ String Py.dquote ": "
      +:+ String Py.dquote "toothache" +:+ String Py.dquote "}".

Definition urgency_reply : Py.val :=
  Py.VDict [("urgency", Py.VStr "emergency"); ("chief_complaint", Py.VStr "toothache")].

(** The text [{"pain_level": 0, "mood": "fine", "insurance_provider": ""}]. *)
Definition empty_values_json : string :=
  "{" +:+ String Py.dquote "pain_level" +:+ String Py.dquote ": 0, "
      +:+ String Py.dquote "mood" +:+ String Py.dquote ": "
      +:+ String Py.dquote "fine" +:+ String Py.dquote ", "
      +:+ String Py.dquote "insurance_provider" +:+ String Py.dquote ": "
      +:+ String Py.dquote "" +:+ String Py.dquote "}".

Definition empty_values_reply : Py.val :=
  Py.VDict [("pain_level", Py.VInt 0); ("mood", Py.VStr "fine");
            ("insurance_provider", Py.VStr "")].

(** The text [{"chief_complaint": "toothache", "dict": "x", "insurance_provider": "Delta"}]:
    its second key names a method of the model object. *)
Definition method_json : string :=
  "{" +:+ String Py.dquote "chief_complaint" +:+ String Py.dquote ": "
      +:+ String Py.dquote "toothache" +:+ String Py.dquote ", "
      +:+ String Py.dquote "dict" +:+ String Py.dquote ": "
      +:+ String Py.dquote "x" +:+ String Py.dquote ", "
      +:+ String Py.dquote "insurance_provider" +:+ String Py.dquote ": "
      +:+ String Py.dquote "Delta" +:+ String Py.dquote "}".

Definition method_reply : Py.val :=
  Py.VDict [("chief_complaint", Py.VStr "toothache"); ("dict", Py.VStr "x");
            ("insurance_provider", Py.VStr "Delta")].

(** An item of the reply that the loop of the extractor passes over: its
    value is false, or the object has no attribute of its name. *)
Definition passed_over (env : Env) (item : string * Py.val) : Prop :=
  Py.truthy item.2 = false \/ hasattr env item.1 = false.

(** Turns run one after the other, [(lead_id, user_speech, call_sid)] each;
    the world they leave. *)
Fixpoint run_turns (env : Env) (turns : list (string * option string * string)) (w : World)
    : World :=
  match turns with
  | [] => w
  | (lead_id, user_speech, call_sid) :: rest =>
      run_turns env rest (process_conversation_turn env lead_id user_speech call_sid w).2
  end.

(** The fixed messages of the evaluator, and the three answers a turn can
    escalate with: reason and message. *)
Definition severe_pain_message : string :=
  "I understand you're in severe pain. Let me connect you immediately with our emergency dental line.".
Definition emergency_message : string :=
  "This sounds like it needs immediate attention. I'm connecting you with our emergency dental team right now.".

Definition escalation_answers : list (string * string) :=
  [ ("severe_pain", severe_pain_message);
    ("emergency_condition", emergency_message);
    ("technical_error", technical_message) ].

Definition is_continue (r : TurnResult) : bool :=
  match r with Continue _ _ => true | _ => false end.

(** A session that has counted nine turns, with and without a complaint
    and a pain level on record. *)
Definition late_session : SessionContext := mkSessionContext [] QualificationData_new 9.

Definition ready_session : SessionContext :=
  mkSessionContext []
    (mkQualificationData (Py.VStr "toothache") (Some PainLevel.SEVERE)
       (Urgency UrgencyLevel.HIGH) Py.VNone Py.VNone Py.VNone
       (Py.VList []) (Py.VList []) (Py.VList []))
    9.

(** ** [src/models/models.py]: leads and compliance flags *)

(** [class Lead(BaseModel)], as validation leaves it: the three required
    fields are strings.  A time is the value of the clock. *)
Module Lead.

Record t : Type := mk {
  id : string;
  first_name : string;
  last_name : option string;
  phone : string;
  email : option string;
  source : option string;
  dnc_status : bool;
  created_at : Z;
  last_contacted : option Z;
}.

(** [lead.dnc_status = b] *)
Definition set_dnc_status (b : bool) (lead : t) : t :=
  mk (id lead) (first_name lead) (last_name lead) (phone lead) (email lead) (source lead)
     b (created_at lead) (last_contacted lead).

End Lead.

(** [class ComplianceFlags(BaseModel)] *)
Record ComplianceFlags : Type := mkComplianceFlags {
  dnc_checked : bool;
  consent_obtained : bool;
  phi_collected : bool;
  escalation_triggered : bool;
  recording_consent : bool;
}.

Definition ComplianceFlags_new : ComplianceFlags :=
  mkComplianceFlags false false false false false.

Definition set_dnc_checked (b : bool) (flags : ComplianceFlags) : ComplianceFlags :=
  mkComplianceFlags b (consent_obtained flags) (phi_collected flags)
    (escalation_triggered flags) (recording_consent flags).

(** ** [src/services/dnc_service.py]: the leads of [DatabaseService] *)

(** [self.leads], and what the service logged. *)
Record DatabaseService : Type := mkDatabaseService {
  leads : gmap string Lead.t;
  db_log : list LogRecord;
}.

Definition DatabaseService_new : DatabaseService := mkDatabaseService ∅ [].

(** [DatabaseService.store_lead] *)
Definition store_lead (lead : Lead.t) (db : DatabaseService) : bool * DatabaseService :=
  (true,
   mkDatabaseService (<[Lead.id lead := lead]> (leads db))
     (db_log db ++ [LogInfo ("Stored lead " +:+ Lead.id lead +:+ " in memory")])).

(** [DatabaseService.get_lead]; the lead it makes up for an unknown id is
    created at [now]. *)
Definition get_lead (now : Z) (lead_id : string) (db : DatabaseService) : Lead.t :=
  match leads db !! lead_id with
  | Some lead => lead
  | None =>
      (* Return mock lead if not found *)
      Lead.mk lead_id "John" (Some "Doe") "+1234567890" None None false now None
  end.

(** ** [src/services/webhook_service.py] *)

(** [HTTPException(status_code=..., detail=...)] *)
Inductive HttpError : Type := HTTPException (status_code : Z) (detail : string).

(** The dicts [process_webhook] returns: [{"status": "skipped", "reason":
    ...}] and [{"status": "processed", "lead_id": ..., "action": ...}]. *)
Inductive WebhookReply : Type :=
  | Skipped (reason : string)
  | Processed (lead_id : string) (action : string).

(** The services a [WebhookService] holds, the tasks added to
    [background_tasks] (the arguments of [_initiate_qualification_call]),
    and what the module logged. *)
Record WebhookService : Type := mkWebhookService {
  dnc_service : DNCService;
  db_service : DatabaseService;
  background_tasks : list (Lead.t * ComplianceFlags);
  webhook_log : list LogRecord;
}.

Definition WebhookService_new : WebhookService :=
  mkWebhookService DNCService_new DatabaseService_new [] [].

Definition webhook_logged (r : LogRecord) (s : WebhookService) : WebhookService :=
  mkWebhookService (dnc_service s) (db_service s) (background_tasks s) (webhook_log s ++ [r]).

(** [WebhookService._validate_lead_data]: a string is true when it is not
    empty. *)
Definition _validate_lead_data (lead : Lead.t) : bool :=
  forallb (fun field => negb (String.eqb field ""))
    [Lead.id lead; Lead.first_name lead; Lead.phone lead].

(** [WebhookService._check_compliance].  [check_dnc_status] catches what it
    raises, so the handler of this function never runs; the lead object is
    written in place, and is returned here with the flags. *)
Definition _check_compliance (lead : Lead.t) (s : WebhookService)
    : ComplianceFlags * Lead.t * WebhookService :=
  let compliance_flags := ComplianceFlags_new in
  let '(is_dnc, dnc) := check_dnc_status (Py.VStr (Lead.phone lead)) (dnc_service s) in
  (set_dnc_checked true compliance_flags,
   Lead.set_dnc_status is_dnc lead,
   mkWebhookService dnc (db_service s) (background_tasks s) (webhook_log s)).

(** The handler of [process_webhook]: every exception of the body, the
    [HTTPException] with status 400 among them, is logged and replaced. *)
Definition webhook_failed (e : exn) (s : WebhookService)
    : (HttpError + WebhookReply) * WebhookService :=
  (inl (HTTPException 500 "Webhook processing failed"),
   webhook_logged (LogFailure "Error processing webhook" e) s).

(** [WebhookService.process_webhook], on the event of the payload and on
    what [payload.to_lead()] gives: the lead, or the exception of its
    validation. *)
Definition process_webhook (event : string) (to_lead : Result Lead.t) (s : WebhookService)
    : (HttpError + WebhookReply) * WebhookService :=
  let s := webhook_logged (LogInfo ("Processing webhook event: " +:+ event)) s in
  match to_lead with
  | Raise e => webhook_failed e s
  | Ok lead =>
      if negb (_validate_lead_data lead) then
        (* raise HTTPException(status_code=400, detail="Invalid lead data") *)
        webhook_failed (OtherError "HTTPException") s
      else
        let '(compliance_flags, lead, s) := _check_compliance lead s in
        if negb (dnc_checked compliance_flags) || Lead.dnc_status lead then
          (inr (Skipped "DNC_listed"),
           webhook_logged
             (LogWarning ("Lead " +:+ Lead.id lead +:+ " is on DNC list, skipping call")) s)
        else
          let '(_, db) := store_lead lead (db_service s) in
          let s := mkWebhookService (dnc_service s) db (background_tasks s) (webhook_log s) in
          (* Schedule call in background *)
          let s :=
            if String.eqb event "contact.created"
            then mkWebhookService (dnc_service s) (db_service s)
                   (background_tasks s ++ [(lead, compliance_flags)]) (webhook_log s)
            else s in
          (inr (Processed (Lead.id lead) "call_scheduled"), s)
  end.

(** [WebhookService._create_personalized_greeting] *)
Definition _create_personalized_greeting (lead : Lead.t) : string :=
  let name := if String.eqb (Lead.first_name lead) "" then "there" else Lead.first_name lead in
  "Hello " +:+ name +:+ ", this is Nova from Premier Dental calling about "
  +:+ "your recent inquiry for dental services. I'm an AI assistant "
  +:+ "that can help schedule your appointment and answer some initial "
  +:+ "questions. Do you have a few minutes to talk?".

(** ** [src/services/twilio_service.py]: the responses *)

(** The verbs of a [VoiceResponse], in order; the source returns their XML
    text, [str(response)]. *)
Inductive Verb : Type :=
  | Say (text : string) (voice : string)
  | Dial (number : string) (timeout : Z) (action : string) (method : string).

(** [TwilioService.create_escalation_twiml]; [escalation_phone] is
    [os.getenv('ESCALATION_PHONE', '+1234567890')]. *)
Definition create_escalation_twiml (escalation_phone : string) (lead_id : string)
    (reason : string) : list Verb :=
  (if String.eqb reason "emergency"
   then [Say ("I understand this sounds urgent. Let me connect you immediately "
              +:+ "with one of our dental professionals who can help you right away.")
           "alice"]
   else [Say ("Let me connect you with one of our team members who can "
              +:+ "better assist you with your dental needs.")
           "alice"])
  (* Transfer to human *)
  ++ [Dial escalation_phone 30 ("/voice/escalation-complete/" +:+ lead_id) "POST"].

(** The generic sentence of an escalation. *)
Definition team_member_sentence : string :=
  "Let me connect you with one of our team members who can better assist you with your dental needs.".

(** A lead as a payload gives it, and the same lead flagged by the payload. *)
Definition sample_lead : Lead.t :=
  Lead.mk "contact-1" "Ana" None "(555) 010-0199" None None false 0 None.

(** The payload gives no lead that passes [_validate_lead_data]. *)
Definition webhook_invalid (to_lead : Result Lead.t) : bool :=
  match to_lead with
  | Ok lead => negb (_validate_lead_data lead)
  | Raise _ => true
  end.

(** A webhook service whose do-not-call list got [number] added. *)
Definition with_number_listed (number : string) (s : WebhookService) : WebhookService :=
  mkWebhookService (add_to_dnc_list (Py.VStr number) (dnc_service s)).2
    (db_service s) (background_tasks s) (webhook_log s).

(** The same lead, flagged as not to be called by the payload. *)
Definition flagged_lead : Lead.t := Lead.set_dnc_status true sample_lead.
(** * Properties *)

(** ** The builtins on examples *)

Example lower_example : Py.lower "No PAIN, 7/10" = "no pain, 7/10".
Proof. reflexivity. Qed.

Example contains_example :
  Py.contains "10" "about 10" = true /\ Py.contains "9" "108" = false.
Proof. split; reflexivity. Qed.

Example strip_example : Py.strip "  How are you?  " = "How are you?".
Proof. reflexivity. Qed.

Example str_example :
  Py.str (Py.VList [Py.VInt 1; Py.VStr "a"; Py.VNone; Py.VBool true;
                    Py.VDict [("k", Py.VList [Py.VInt (-2)])]])
  = "[1, 'a', None, True, {'k': [-2]}]".
Proof. reflexivity. Qed.

Example repr_str_example :
  Py.repr_str "a'b" = String Py.dquote ("a'b" +:+ String Py.dquote "").
Proof. reflexivity. Qed.

Example last_n_example : Py.last_n 2 [1; 2; 3] = [2; 3] /\ Py.last_n 6 [1; 2; 3] = [1; 2; 3].
Proof. split; reflexivity. Qed.

(** ** Substrings and lower case *)

Section Strings.

Implicit Types (p s needle hay : string).

Lemma startswith_lower p s :
  Py.startswith p s = true -> Py.startswith (Py.lower p) (Py.lower s) = true.
Proof.
  revert s. induction p as [|a p IH]; intros [|b s]; simpl; try done.
  intros [Hab Hps]%andb_prop. apply Ascii.eqb_eq in Hab as ->.
  by rewrite Ascii.eqb_refl, IH.
Qed.

(** A substring stays one when both strings are put in lower case. *)
Lemma contains_lower needle hay :
  Py.contains needle hay = true -> Py.contains (Py.lower needle) (Py.lower hay) = true.
Proof.
  induction hay as [|c hay IH]; simpl.
  - rewrite !orb_false_r. apply startswith_lower.
  - intros [H%startswith_lower | H%IH]%orb_prop.
    + simpl in H. by rewrite H.
    + by rewrite H, orb_true_r.
Qed.

Lemma any_in_true words s w :
  w ∈ words -> Py.contains w s = true -> Py.any_in words s = true.
Proof.
  intros Hin Hw. apply existsb_exists. exists w. by rewrite <- list_elem_of_In.
Qed.

(** The keyword loop answers no exactly when no keyword is found. *)
Lemma scan_keywords_none keywords s :
  scan_keywords keywords s = NoEscalation
  <-> Forall (fun keyword => Py.contains keyword s = false) keywords.
Proof.
  induction keywords as [|k ks IH]; simpl.
  - split; [constructor | done].
  - destruct (Py.contains k s) eqn:Hk.
    + split; [done | intros [? _]%Forall_cons_1; congruence].
    + rewrite IH. split; [by constructor | by intros [_ ?]%Forall_cons_1].
Qed.

Lemma scan_keywords_found keywords s :
  Py.any_in keywords s = true ->
  scan_keywords keywords s
  = EscalateNow "emergency_condition"
      "This sounds like it needs immediate attention. I'm connecting you with our emergency dental team right now.".
Proof.
  induction keywords as [|k ks IH]; simpl; [done |].
  destruct (Py.contains k s); [done | apply IH].
Qed.

End Strings.

(** ** The pain scale *)

(** C7: a raw pain level that contains "9" or "10" is normalised to the
    emergency level, whatever words stand next to the digits: the numeric
    rule for 9 and 10 is the first one tried. *)
Theorem normalize_nine_or_ten_is_emergency (raw : string) :
  Py.contains "9" raw = true \/ Py.contains "10" raw = true ->
  _normalize_pain_level (Py.VStr raw) = Some PainLevel.EMERGENCY.
Proof.
  intros H. unfold _normalize_pain_level. cbn [Py.str].
  replace (Py.any_in ["9"; "10"] (Py.lower raw)) with true; [done |].
  symmetry. destruct H as [H%contains_lower | H%contains_lower].
  - apply (any_in_true _ _ "9"); [set_solver | exact H].
  - apply (any_in_true _ _ "10"); [set_solver | exact H].
Qed.

Lemma normalize_nine_or_ten_witness :
  _normalize_pain_level (Py.VStr "Mild, no pain... OK, a 10") = Some PainLevel.EMERGENCY.
Proof.
  apply normalize_nine_or_ten_is_emergency. right. reflexivity.
Defined.

(** The same holds of every value by its text, be it a string, a number or
    a list. *)
Lemma normalize_nine_or_ten (pain_input : Py.val) :
  Py.contains "9" (Py.str pain_input) = true
  \/ Py.contains "10" (Py.str pain_input) = true ->
  _normalize_pain_level pain_input = Some PainLevel.EMERGENCY.
Proof.
  intros H. unfold _normalize_pain_level.
  replace (Py.any_in ["9"; "10"] (Py.lower (Py.str pain_input))) with true; [done |].
  symmetry. destruct H as [H%contains_lower | H%contains_lower].
  - apply (any_in_true _ _ "9"); [set_solver | exact H].
  - apply (any_in_true _ _ "10"); [set_solver | exact H].
Qed.

Example normalize_first_match_wins :
  _normalize_pain_level (Py.VStr "7 out of 10, not unbearable") = Some PainLevel.EMERGENCY
  /\ _normalize_pain_level (Py.VStr "7, unbearable") = Some PainLevel.SEVERE
  /\ _normalize_pain_level (Py.VStr "No Pain") = Some PainLevel.NONE
  /\ _normalize_pain_level (Py.VInt 5) = Some PainLevel.MODERATE
  /\ _normalize_pain_level (Py.VStr "awful") = None.
Proof. repeat split; reflexivity. Qed.

(** ** The escalation evaluator *)

(** C1, as the code has it: on the utterance "I can't breathe and there's
    facial swelling" the evaluator escalates for every qualification data;
    the reason is "emergency_condition" unless the pain level of the data is
    the emergency one, in which case the rule on the pain level answers first
    with "severe_pain". *)
Theorem breath_utterance_escalates (data : QualificationData) :
  escalate (_check_escalation_conditions breath_utterance data) = true
  /\ reason_of (_check_escalation_conditions breath_utterance data)
     = Some (if bool_decide (pain_level data = Some PainLevel.EMERGENCY)
             then "severe_pain" else "emergency_condition").
Proof.
  unfold _check_escalation_conditions.
  destruct (bool_decide (pain_level data = Some PainLevel.EMERGENCY)); [done |].
  by rewrite scan_keywords_found.
Qed.

(** C1 as stated fails on data whose pain level is the emergency one: the
    reason returned there is "severe_pain". *)
Lemma breath_utterance_emergency_pain :
  let data := set_pain_level (Some PainLevel.EMERGENCY) QualificationData_new in
  escalate (_check_escalation_conditions breath_utterance data) = true
  /\ reason_of (_check_escalation_conditions breath_utterance data) = Some "severe_pain"
  /\ reason_of (_check_escalation_conditions breath_utterance data)
     <> Some "emergency_condition".
Proof. repeat split. discriminate. Qed.

(** Data with a non-empty list of emergency indicators, a pain level
    other than the emergency one and a chief complaint free of "swelling",
    "fever", "trauma" and "bleeding" makes [requires_escalation] true, while
    the evaluator does not escalate on such data for any utterance that has
    none of its keywords.  Both searches are made in the lower-cased text. *)
Lemma indicators_escape_the_evaluator
    (data : QualificationData) (indicators : list Py.val) (utterance : string) :
  emergency_indicators data = Py.VList indicators ->
  indicators <> [] ->
  pain_level data <> Some PainLevel.EMERGENCY ->
  complaint_is_clear data ->
  Forall (fun keyword => Py.contains keyword (Py.lower utterance) = false)
         emergency_keywords ->
  requires_escalation data = Ok true
  /\ _check_escalation_conditions utterance data = NoEscalation.
Proof.
  intros Hind Hne Hpain Hcc Hutt. split.
  - unfold requires_escalation. rewrite Hind.
    assert (exists lowered, or_empty_lower (chief_complaint data) = Ok lowered)
      as [lowered ->].
    { destruct Hcc as [-> | (s & -> & _)]; unfold or_empty_lower; simpl; [by eexists |].
      destruct (negb (s =? "")%string); by eexists. }
    cbn. destruct indicators as [|i rest]; [done |].
    cbn. by rewrite !orb_true_r.
  - unfold _check_escalation_conditions.
    rewrite bool_decide_eq_false_2 by done.
    by apply scan_keywords_none.
Qed.

(** The lower-cased complaint that [requires_escalation] searches, when the
    complaint is clear of its four words. *)
Lemma clear_complaint_lowered (data : QualificationData) :
  complaint_is_clear data ->
  exists lowered,
    or_empty_lower (chief_complaint data) = Ok lowered
    /\ Forall (fun word => Py.contains word lowered = false)
              ["swelling"; "fever"; "trauma"; "bleeding"].
Proof.
  intros [Hnone | (complaint & Hstr & Hclear)].
  - rewrite Hnone. exists "". split; [reflexivity | by repeat constructor].
  - rewrite Hstr. unfold or_empty_lower. cbn.
    destruct (String.eqb_spec complaint "") as [-> | _]; cbn.
    + exists "". split; [reflexivity | by repeat constructor].
    + by exists (Py.lower complaint).
Qed.

(** Data that is clear of everything [requires_escalation] looks for makes
    it false, and an utterance with a keyword makes the evaluator escalate for
    "emergency_condition" on such data. *)
Lemma keywords_escape_the_predicate (data : QualificationData) (utterance : string) :
  emergency_indicators data = Py.VList [] ->
  pain_level data <> Some PainLevel.EMERGENCY ->
  complaint_is_clear data ->
  has_keyword utterance ->
  requires_escalation data = Ok false
  /\ reason_of (_check_escalation_conditions utterance data) = Some "emergency_condition".
Proof.
  intros Hind Hpain Hcc Hkey. split.
  - unfold requires_escalation. rewrite Hind.
    destruct (clear_complaint_lowered data Hcc) as (lowered & -> & Hclear).
    apply Forall_cons in Hclear as [H1 Hclear]. apply Forall_cons in Hclear as [H2 Hclear].
    apply Forall_cons in Hclear as [H3 Hclear]. apply Forall_cons in Hclear as [H4 _].
    cbn. rewrite H1, H2, H3, H4. cbn. by rewrite bool_decide_eq_false_2.
  - unfold _check_escalation_conditions.
    rewrite bool_decide_eq_false_2 by done.
    rewrite scan_keywords_found; [done |].
    unfold has_keyword in Hkey. apply Exists_exists in Hkey as (keyword & Hin & Hfound).
    by eapply any_in_true.
Qed.

(** C9, as the code has it: neither of the two is the less sensitive one.
    Data with a non-empty list of emergency indicators, a pain level other
    than the emergency one and a complaint free of the four words makes
    [requires_escalation] true while the evaluator does not escalate on any
    utterance without a keyword; and on data with no indicator, a pain level
    other than the emergency one and such a complaint [requires_escalation]
    is false while the evaluator escalates, for "emergency_condition", on
    every utterance with one of its keywords. *)
Theorem evaluator_and_predicate_incomparable :
  (forall (data : QualificationData) (indicators : list Py.val) (utterance : string),
      emergency_indicators data = Py.VList indicators ->
      indicators <> [] ->
      pain_level data <> Some PainLevel.EMERGENCY ->
      complaint_is_clear data ->
      Forall (fun keyword => Py.contains keyword (Py.lower utterance) = false)
             emergency_keywords ->
      requires_escalation data = Ok true
      /\ _check_escalation_conditions utterance data = NoEscalation)
  /\ (forall (data : QualificationData) (utterance : string),
      emergency_indicators data = Py.VList [] ->
      pain_level data <> Some PainLevel.EMERGENCY ->
      complaint_is_clear data ->
      has_keyword utterance ->
      requires_escalation data = Ok false
      /\ reason_of (_check_escalation_conditions utterance data)
         = Some "emergency_condition").
Proof.
  split.
  - intros data indicators utterance. apply indicators_escape_the_evaluator.
  - intros data utterance. apply keywords_escape_the_predicate.
Qed.

Lemma evaluator_and_predicate_incomparable_witness :
  let flagged := mkQualificationData (Py.VStr "a chipped tooth") (Some PainLevel.MILD)
                   (Urgency UrgencyLevel.LOW) Py.VNone Py.VNone Py.VNone
                   (Py.VList []) (Py.VList []) (Py.VList [Py.VStr "numb jaw"]) in
  let plain := mkQualificationData (Py.VStr "a chipped tooth") (Some PainLevel.MILD)
                 (Urgency UrgencyLevel.LOW) Py.VNone Py.VNone Py.VNone
                 (Py.VList []) (Py.VList []) (Py.VList []) in
  (requires_escalation flagged = Ok true
   /\ _check_escalation_conditions "My tooth chipped yesterday" flagged = NoEscalation)
  /\ (requires_escalation plain = Ok false
      /\ reason_of (_check_escalation_conditions "It was an ACCIDENT at work" plain)
         = Some "emergency_condition").
Proof.
  destruct evaluator_and_predicate_incomparable as [Hindicators Hkeywords]. split.
  - apply (Hindicators _ [Py.VStr "numb jaw"]).
    + reflexivity.
    + discriminate.
    + discriminate.
    + right. eexists. split; [reflexivity |]. repeat constructor.
    + repeat constructor.
  - apply Hkeywords.
    + reflexivity.
    + discriminate.
    + right. eexists. split; [reflexivity |]. repeat constructor.
    + unfold has_keyword, emergency_keywords. do 10 apply Exists_cons_tl.
      by apply Exists_cons_hd.
Defined.

(** C9 as stated fails: the evaluator is not the less sensitive of the
    two.  It reads the utterance, which [requires_escalation] never sees, and
    escalates on a keyword where the predicate is false. *)
Example evaluator_fires_alone :
  _check_escalation_conditions "I think I have an abscess" QualificationData_new
  = EscalateNow "emergency_condition"
      "This sounds like it needs immediate attention. I'm connecting you with our emergency dental team right now."
  /\ requires_escalation QualificationData_new = Ok false.
Proof. split; reflexivity. Qed.

(** ** Running the monad *)

Lemma add_events_add_events d1 d2 w :
  add_events d2 (add_events d1 w) = add_events (d1 ++ d2) w.
Proof. unfold add_events. simpl. by rewrite app_assoc. Qed.

Lemma events_since_add_events d w : events_since w (add_events d w) = d.
Proof. unfold events_since. simpl. by rewrite drop_app_length. Qed.

Lemma bind_run {A B} (m : M A) (k : A -> M B) (w : World) :
  (m ≫= k) w = match m w with
               | (Ok a, w') => k a w'
               | (Raise e, w') => (Raise e, w')
               end.
Proof. reflexivity. Qed.

Lemma emit_run e w : emit e w = (Ok (), add_events [e] w).
Proof. reflexivity. Qed.

Lemma ret_run {A} (a : A) (w : World) : mret (M := M) a w = (Ok a, w).
Proof. reflexivity. Qed.

(** One step of evaluation of a computation applied to a world. *)
Ltac run_step :=
  first
    [ rewrite bind_run
    | rewrite emit_run
    | rewrite ret_run
    | progress unfold logger_error, raise, lift, create, now
    | progress cbn beta iota ].

Ltac run := repeat run_step; rewrite ?add_events_add_events; cbn [app].

(** [H : x ∈ [a; b; ...]] with [x] different from each element. *)
Ltac no_member H :=
  repeat (apply elem_of_cons in H as [H | H]; [discriminate H |]);
  apply elem_of_nil in H.

(** Equality of two lists of events up to the grouping of [++]. *)
Ltac assoc_events :=
  repeat first [ rewrite <- app_assoc | progress cbn [app] ]; reflexivity.

(** ** The response generator *)

(** No required field is missing exactly when all four are true values. *)
Lemma identify_missing_data_nil (data : QualificationData) :
  _identify_missing_data data = []
  <-> Py.truthy (chief_complaint data) = true
      /\ truthy_pain_level (pain_level data) = true
      /\ Py.truthy (insurance_provider data) = true
      /\ Py.truthy (preferred_appointment_time data) = true.
Proof.
  unfold _identify_missing_data.
  destruct (Py.truthy (chief_complaint data)), (truthy_pain_level (pain_level data)),
    (Py.truthy (insurance_provider data)), (Py.truthy (preferred_appointment_time data));
    simpl; split; try done; intros (? & ? & ? & ?); done.
Qed.

(** When the conversation is to conclude, the generator returns one of its
    two fixed replies, and the record of its own call is the only event. *)
Lemma generator_concludes env (history : list ConversationTurn)
    (data : QualificationData) (turns : Z) (w : World) :
  (10 <=? turns) || bool_decide (_identify_missing_data data = []) = true ->
  let scheduled :=
    Py.truthy (chief_complaint data) && truthy_pain_level (pain_level data) in
  _generate_ai_response env history data turns w
  = (Ok {| ai_message := if scheduled then scheduling_message else follow_up_message;
           ai_complete := true;
           ai_appointment_scheduled := Some scheduled |},
     add_events [CallGenerator] w).
Proof.
  intros Hconclude scheduled.
  unfold _generate_ai_response, try_except. run. rewrite Hconclude.
  subst scheduled. by destruct (Py.truthy _ && truthy_pain_level _).
Qed.

(** A pain level is true exactly when it is set, and when the other
    required fields are [None] or true, no field is missing exactly when
    none of the four is [None]. *)
Lemma truthy_pain_level_set (p : option PainLevel.t) :
  truthy_pain_level p = true <-> p <> None.
Proof. by destruct p as [[]|]. Qed.

Lemma none_or_true_set (v : Py.val) :
  none_or_true v -> (Py.truthy v = true <-> v <> Py.VNone).
Proof. intros [-> | Htrue]; [done |]. split; [| done]. by intros _ ->. Qed.

Lemma identify_missing_data_nil_set (data : QualificationData) :
  required_fields_none_or_true data ->
  _identify_missing_data data = []
  <-> chief_complaint data <> Py.VNone
      /\ pain_level data <> None
      /\ insurance_provider data <> Py.VNone
      /\ preferred_appointment_time data <> Py.VNone.
Proof.
  intros (Hc & Hi & Hp). rewrite identify_missing_data_nil, truthy_pain_level_set.
  by rewrite !none_or_true_set.
Qed.

(** C4: at ten turns or more, or with the four required fields all set (a
    field is set when the code's truth test on it holds), the generator
    concludes with one of its two fixed messages and calls no model:
    [appointment_scheduled] is true exactly when the chief complaint and the
    pain level are both set.  The only event of the run is the call of the
    generator itself. *)
Theorem generator_concludes_without_model env (history : list ConversationTurn)
    (data : QualificationData) (turns : Z) (w : World) :
  10 <= turns
  \/ (Py.truthy (chief_complaint data) = true
      /\ truthy_pain_level (pain_level data) = true
      /\ Py.truthy (insurance_provider data) = true
      /\ Py.truthy (preferred_appointment_time data) = true) ->
  let scheduled :=
    Py.truthy (chief_complaint data) && truthy_pain_level (pain_level data) in
  _generate_ai_response env history data turns w
  = (Ok {| ai_message := if scheduled then scheduling_message else follow_up_message;
           ai_complete := true;
           ai_appointment_scheduled := Some scheduled |},
     add_events [CallGenerator] w)
  /\ filter is_model_call
       (events_since w (_generate_ai_response env history data turns w).2) = [].
Proof.
  intros Hconclude scheduled.
  assert ((10 <=? turns) || bool_decide (_identify_missing_data data = []) = true) as Hb.
  { apply orb_true_iff. destruct Hconclude as [Hturns | Hset].
    - left. by apply Z.leb_le.
    - right. by apply bool_decide_eq_true, identify_missing_data_nil. }
  rewrite (generator_concludes env history data turns w Hb).
  split; [reflexivity |]. cbn [snd]. by rewrite events_since_add_events.
Qed.

Lemma generator_concludes_witness :
  _generate_ai_response outage_env [] QualificationData_new 10 empty_world
  = (Ok {| ai_message := follow_up_message; ai_complete := true;
           ai_appointment_scheduled := Some false |},
     add_events [CallGenerator] empty_world).
Proof.
  apply (generator_concludes_without_model outage_env [] QualificationData_new 10 empty_world).
  left. lia.
Defined.

(** What the generator makes of the reply of the model: the stripped
    content of the first choice, or the exception met on the way to it. *)
Lemma generator_asks_the_model env (history : list ConversationTurn)
    (data : QualificationData) (turns : Z) (w : World) :
  (10 <=? turns) || bool_decide (_identify_missing_data data = []) = false ->
  let request :=
    next_question_request (_identify_missing_data data)
      (Py.join newline
         (map (fun turn => speaker turn +:+ ": " +:+ message turn) (Py.last_n 6 history)))
      data in
  _generate_ai_response env history data turns w
  = match response ← chat_completions_create env
                        (length (filter is_model_call (events w ++ [CallGenerator])))
                        request;
          first_content response ≫= strip_content with
    | Ok text =>
        (Ok {| ai_message := text; ai_complete := false; ai_appointment_scheduled := None |},
         add_events [CallGenerator; ModelCall request] w)
    | Raise e =>
        (Ok {| ai_message := handoff_message; ai_complete := true;
               ai_appointment_scheduled := Some false |},
         add_events [CallGenerator; ModelCall request;
                     LogError "Error generating AI response" e] w)
    end.
Proof.
  intros Hask request. unfold _generate_ai_response, try_except. run.
  rewrite Hask. run. fold request.
  destruct (chat_completions_create env _ request) as [[|[text|] rest]|e];
    cbn; run; reflexivity.
Qed.

Lemma model_calls_after_call (c : Event) (evs : list Event) :
  is_model_call c = false ->
  length (filter is_model_call (evs ++ [c])) = length (filter is_model_call evs).
Proof.
  intros Hc. rewrite filter_app, length_app. cbn.
  destruct (decide (is_model_call c)) as [Hd|Hd]; [| cbn; lia].
  apply Is_true_true in Hd. congruence.
Qed.

(** C6: when the generator has to ask the model for the next question
    (fewer than ten turns and a required field missing) and the call fails
    (it raises, or its reply has no choice or no content), the generator
    returns the fixed hand-off message with [complete] true and
    [appointment_scheduled] false.  It returns: the error is logged and
    does not reach the caller. *)
Theorem generator_falls_back_on_model_failure env (history : list ConversationTurn)
    (data : QualificationData) (turns : Z) (w : World) (e : exn) :
  turns < 10 ->
  _identify_missing_data data <> [] ->
  let request :=
    next_question_request (_identify_missing_data data)
      (Py.join newline
         (map (fun turn => speaker turn +:+ ": " +:+ message turn) (Py.last_n 6 history)))
      data in
  (response ← chat_completions_create env (length (filter is_model_call (events w))) request;
   first_content response ≫= strip_content) = Raise e ->
  _generate_ai_response env history data turns w
  = (Ok {| ai_message := handoff_message; ai_complete := true;
           ai_appointment_scheduled := Some false |},
     add_events [CallGenerator; ModelCall request;
                 LogError "Error generating AI response" e] w).
Proof.
  intros Hturns Hmissing request Hfail.
  rewrite generator_asks_the_model.
  - rewrite model_calls_after_call by done. fold request. by rewrite Hfail.
  - apply orb_false_iff. split; [by apply Z.leb_gt | by apply bool_decide_eq_false].
Qed.

Lemma generator_falls_back_witness :
  fst (_generate_ai_response outage_env [] QualificationData_new 1 empty_world)
  = Ok {| ai_message := handoff_message; ai_complete := true;
          ai_appointment_scheduled := Some false |}.
Proof.
  rewrite (generator_falls_back_on_model_failure outage_env [] QualificationData_new 1
             empty_world (OtherError "APIConnectionError")).
  - reflexivity.
  - lia.
  - discriminate.
  - reflexivity.
Defined.

(** The generator returns on every input, and leaves the sessions alone. *)
Lemma generator_returns env (history : list ConversationTurn)
    (data : QualificationData) (turns : Z) (w : World) :
  exists response evs,
    _generate_ai_response env history data turns w
    = (Ok response, add_events (CallGenerator :: evs) w)
    /\ quiet evs.
Proof.
  destruct ((10 <=? turns) || bool_decide (_identify_missing_data data = [])) eqn:Hask.
  - rewrite (generator_concludes env history data turns w Hask).
    eexists _, []. split; [reflexivity | constructor].
  - rewrite (generator_asks_the_model _ _ _ _ _ Hask).
    destruct (_ ≫= _) as [text|e]; eexists _, _; (split; [reflexivity |]);
      repeat constructor; done.
Qed.

(** ** The extractor *)

Section Extractor.

Context (env : Env).

Lemma setattr_pain_level d key value d' :
  setattr env d key value = Ok d' -> pain_level d' = pain_level d.
Proof.
  unfold setattr.
  repeat (case_match; [by intros [= <-] |]). done.
Qed.

(** A reply that does not name the pain level leaves it as it is. *)
Lemma apply_items_keeps_pain_level items d :
  "pain_level" ∉ items.*1 ->
  pain_level (apply_items env items d).2 = pain_level d.
Proof.
  revert d. induction items as [|[key value] items IH]; intros d Hkey; [done |].
  apply not_elem_of_cons in Hkey as [Hne Hkey]. cbn in Hne |- *.
  destruct (Py.truthy value && hasattr env key); [| by apply IH].
  destruct (String.eqb_spec key "pain_level") as [-> | _]; [done |].
  destruct (setattr env d key value) as [d'|e] eqn:Hset; [| done].
  rewrite IH by done. by eapply setattr_pain_level.
Qed.

(** A true value under "pain_level" that matches no rule of the
    normalisation unsets the pain level, when the loop runs to its end. *)
Lemma apply_items_unsets_pain_level items d value :
  NoDup items.*1 ->
  ("pain_level", value) ∈ items ->
  Py.truthy value = true ->
  _normalize_pain_level value = None ->
  (apply_items env items d).1 = Ok () ->
  pain_level (apply_items env items d).2 = None.
Proof.
  revert d. induction items as [|[key value'] items IH]; intros d Hnodup Hin Htrue Hnone Hok.
  { by apply elem_of_nil in Hin. }
  apply NoDup_cons in Hnodup as [Hfresh Hnodup]. cbn in Hfresh, Hok |- *.
  apply elem_of_cons in Hin as [[= <- <-] | Hin].
  - rewrite Htrue. unfold hasattr. rewrite bool_decide_eq_true_2 by set_solver.
    cbn. rewrite apply_items_keeps_pain_level by done. by rewrite Hnone.
  - assert (key <> "pain_level") as Hne.
    { intros ->. apply Hfresh. apply list_elem_of_fmap. by exists ("pain_level", value). }
    destruct (Py.truthy value' && hasattr env key); [| by apply IH].
    destruct (String.eqb_spec key "pain_level") as [? | _]; [done |].
    destruct (setattr env d key value') as [d'|e]; [by apply IH | done].
Qed.

(** The loop runs to its end on a reply of plain items: every key is a
    field, or no attribute at all. *)
Lemma apply_items_plain_ok items d :
  Forall (plain_item env) items ->
  (apply_items env items d).1 = Ok ().
Proof.
  revert d. induction items as [|[key value] items IH]; intros d Hplain; [done |].
  apply Forall_cons in Hplain as [Hkey Hplain]. unfold plain_item in Hkey.
  cbn in Hkey |- *.
  destruct (Py.truthy value && hasattr env key) eqn:Hguard; [| by apply IH].
  destruct (String.eqb_spec key "pain_level") as [? | Hne]; [by apply IH |].
  assert (key ∈ field_names) as Hfield.
  { destruct Hkey as [? | Hother]; [done |].
    apply andb_prop in Hguard as [_ Hattr]. unfold hasattr in Hattr.
    rewrite Hother, orb_false_r in Hattr. by apply bool_decide_eq_true in Hattr. }
  assert (is_ok (setattr env d key value) = true) as Hok.
  { unfold field_names in Hfield. unfold setattr.
    repeat (apply elem_of_cons in Hfield as [-> | Hfield]; [done |]).
    by apply elem_of_nil in Hfield. }
  destruct (setattr env d key value); [by apply IH | done].
Qed.

Lemma apply_items_fields_ok items d :
  Forall (fun item => item.1 ∈ field_names) items ->
  (apply_items env items d).1 = Ok ().
Proof.
  intros Hfields. apply apply_items_plain_ok.
  eapply Forall_impl; [exact Hfields |]. intros item Hitem. by left.
Qed.

Lemma setattr_required_fields d key value d' :
  Py.truthy value = true ->
  setattr env d key value = Ok d' ->
  required_fields_none_or_true d -> required_fields_none_or_true d'.
Proof.
  unfold required_fields_none_or_true, none_or_true.
  intros Htrue Hset (Hc & Hi & Hp). unfold setattr in Hset.
  repeat (case_match; [injection Hset as <-; cbn; by auto |]). done.
Qed.

(** The loop keeps the required fields [None] or true: it assigns true
    values only. *)
Lemma apply_items_required_fields items d :
  required_fields_none_or_true d ->
  required_fields_none_or_true (apply_items env items d).2.
Proof.
  revert d. induction items as [|[key value] items IH]; intros d Hd; [done |]. cbn.
  destruct (Py.truthy value) eqn:Htrue; cbn; [| by apply IH].
  destruct (hasattr env key); [| by apply IH].
  destruct (String.eqb key "pain_level"); [by apply IH |].
  destruct (setattr env d key value) as [d'|e] eqn:Hset; [| done].
  apply IH. by eapply setattr_required_fields.
Qed.

(** An assignment that is accepted for a name that is no field changes no
    field, and the loop goes on. *)
Example apply_items_passes_a_docstring :
  apply_items outage_env
    [("chief_complaint", Py.VStr "toothache"); ("__doc__", Py.VStr "x");
     ("pain_level", Py.VStr "9")]
    QualificationData_new
  = (Ok (),
     mkQualificationData (Py.VStr "toothache") (Some PainLevel.EMERGENCY)
       (Urgency UrgencyLevel.LOW) Py.VNone Py.VNone Py.VNone
       (Py.VList []) (Py.VList []) (Py.VList [])).
Proof. reflexivity. Qed.

(** An assignment that raises ends the loop: what was assigned before
    stays, what follows is not looked at. *)
Example apply_items_stops_at_a_method :
  apply_items outage_env
    [("chief_complaint", Py.VStr "toothache"); ("dict", Py.VInt 1);
     ("pain_level", Py.VStr "9")]
    QualificationData_new
  = (Raise ValueError,
     mkQualificationData (Py.VStr "toothache") None (Urgency UrgencyLevel.LOW)
       Py.VNone Py.VNone Py.VNone (Py.VList []) (Py.VList []) (Py.VList [])).
Proof. reflexivity. Qed.

(** The extractor, by what it makes of the reply. *)
Lemma extractor_run (user_input : string) (d : QualificationData) (w : World) :
  let request := extraction_request user_input d in
  _extract_qualification_data env user_input d w
  = match extracted_items env
            (chat_completions_create env (length (filter is_model_call (events w)))
               request) with
    | Raise e =>
        (Ok d, add_events [CallExtractor; ModelCall request;
                           LogError "Error extracting qualification data" e] w)
    | Ok items =>
        match apply_items env items d with
        | (Ok _, d') =>
            (Ok (set_urgency (Urgency (_calculate_urgency d')) d'),
             add_events [CallExtractor; ModelCall request] w)
        | (Raise e, d') =>
            (Ok d', add_events [CallExtractor; ModelCall request;
                                LogError "Error extracting qualification data" e] w)
        end
    end.
Proof.
  intros request.
  unfold _extract_qualification_data, try_except, extracted_items. run.
  cbn [events add_events]. rewrite model_calls_after_call by done. fold request.
  destruct (chat_completions_create env _ request) as [[|[text|] rest]|e];
    cbn; run; try reflexivity.
  destruct (json_loads env text) as [[]|e]; cbn; run; try reflexivity.
  destruct (apply_items env _ d) as [[[]|e] d']; run; reflexivity.
Qed.

(** What the extractor returns depends on the world through its events
    only: through the number of calls of the model made before. *)
Lemma extractor_result_by_events (user_input : string) (d : QualificationData)
    (w1 w2 : World) :
  events w1 = events w2 ->
  (_extract_qualification_data env user_input d w1).1
  = (_extract_qualification_data env user_input d w2).1.
Proof.
  intros Hevents. rewrite !extractor_run. cbn zeta. rewrite Hevents.
  destruct (extracted_items env _) as [items|e]; [| done].
  by destruct (apply_items env items d) as [[[]|e] d'].
Qed.

(** The extractor returns on every input: it calls the model once, may log
    one error, and leaves the sessions alone. *)
Lemma extractor_returns (user_input : string) (d : QualificationData) (w : World) :
  exists d' evs,
    _extract_qualification_data env user_input d w
    = (Ok d', add_events (CallExtractor :: ModelCall (extraction_request user_input d) :: evs) w)
    /\ Forall (fun ev => is_log_error ev = true) evs
    /\ (required_fields_none_or_true d -> required_fields_none_or_true d').
Proof.
  unfold _extract_qualification_data, try_except. run.
  destruct (chat_completions_create env _ _) as [response|e]; run.
  2: { eexists _, [_]. split; [reflexivity |]. split; [| done]. repeat constructor. }
  destruct (first_content response ≫= loads env) as [extracted|e]; run.
  2: { eexists _, [_]. split; [reflexivity |]. split; [| done]. repeat constructor. }
  destruct (items_of extracted) as [items|e]; run.
  2: { eexists _, [_]. split; [reflexivity |]. split; [| done]. repeat constructor. }
  pose proof (apply_items_required_fields items d) as Hkeep.
  destruct (apply_items env items d) as [[[]|e] d']; run.
  - eexists _, []. split; [reflexivity |]. split; [constructor |]. exact Hkeep.
  - eexists _, [_]. split; [reflexivity |]. split; [| exact Hkeep]. repeat constructor.
Qed.

End Extractor.

(** ** The turn orchestrator *)

Section Orchestrator.

Context (env : Env).

Ltac run_state :=
  repeat first
    [ run_step
    | progress unfold alloc, sessions_get, modify, load, sessions_set, ConversationTurn_new
    | progress unfold set_heap, add_events, set_active_sessions
    | progress cbn [heap events active_sessions message]
    | rewrite lookup_total_insert_eq
    | rewrite insert_insert_eq ].

(** The dict a turn works on holds the session the turn starts from. *)
Lemma session_loc_holds (w : World) (lead_id : string) :
  <[fresh (dom (heap w)) := new_session]> (heap w) !!! session_loc w lead_id
  = session_before w lead_id.
Proof.
  unfold session_loc, session_before, stored_session.
  destruct (active_sessions w !! lead_id) as [l|] eqn:Hl; cbn.
  - destruct (decide (l = fresh (dom (heap w)))) as [-> | Hne].
    + rewrite lookup_total_insert_eq.
      assert (heap w !! fresh (dom (heap w)) = None) as ->; [| done].
      apply not_elem_of_dom, is_fresh.
    + rewrite lookup_total_insert_ne by done.
      rewrite lookup_total_alt. by destruct (heap w !! l).
  - by rewrite lookup_total_insert_eq.
Qed.

(** A turn whose utterance is [None] stops at the validation of the user
    turn: the body raises and the session is not touched. *)
Lemma turn_body_invalid (lead_id call_sid : string) (w : World) :
  process_conversation_turn_body env lead_id None call_sid w
  = (Raise ValidationError,
     add_events [ClockRead] (set_heap (insert (fresh (dom (heap w))) new_session) w)).
Proof. reflexivity. Qed.

(** One turn with an utterance, step by step: the user turn is appended
    and the turns counted in the dict the turn works on, the extractor
    rewrites the data, the evaluator is asked, and either the turn ends
    there or the generator answers, its turn is appended and the dict is
    stored under the lead. *)
Lemma turn_body_run_data (lead_id utterance call_sid : string) (w : World) :
  let l := session_loc w lead_id in
  let before := session_before w lead_id in
  let heap0 := <[fresh (dom (heap w)) := new_session]> (heap w) in
  let user_turn :=
    mkConversationTurn (utcnow env (length (filter is_clock_read (events w))))
      "user" utterance None (Some (95 # 100)%Q) in
  exists d' evs,
    (_extract_qualification_data env utterance (qualification_data before)
       (add_events [ClockRead] w)).1 = Ok d' /\
    Forall (fun ev => is_log_error ev = true) evs /\
    (required_fields_none_or_true (qualification_data before) ->
     required_fields_none_or_true d') /\
    let heard :=
      mkSessionContext (conversation_history before ++ [user_turn]) d'
        (turn_count before + 1) in
    let evs1 :=
      events w ++ ClockRead :: CallExtractor
        :: ModelCall (extraction_request utterance (qualification_data before))
        :: evs ++ [CallEvaluator (_check_escalation_conditions utterance d')] in
    match _check_escalation_conditions utterance d' with
    | EscalateNow reason message =>
        process_conversation_turn_body env lead_id (Some utterance) call_sid w
        = (Ok (Escalate reason message),
           mkWorld (active_sessions w) (<[l := heard]> heap0) evs1)
    | NoEscalation =>
        exists ai_response gevs ts,
          quiet gevs /\
          let ai_turn :=
            mkConversationTurn ts "assistant" (ai_message ai_response) None None in
          process_conversation_turn_body env lead_id (Some utterance) call_sid w
          = (Ok (if ai_complete ai_response
                 then Complete (ai_message ai_response) d'
                        (default false (ai_appointment_scheduled ai_response))
                 else Continue (ai_message ai_response) d'),
             mkWorld (<[lead_id := l]> (active_sessions w))
               (<[l := append_turn ai_turn heard]> heap0)
               (evs1 ++ CallGenerator :: gevs ++ [ClockRead]))
    end.
Proof.
  intros l before heap0 user_turn.
  set (extracted := (_extract_qualification_data env utterance (qualification_data before)
                       (add_events [ClockRead] w)).1).
  unfold process_conversation_turn_body. run_state.
  change (default (fresh (dom (heap w))) (active_sessions w !! lead_id)) with l.
  change {| conversation_history := []; qualification_data := QualificationData_new;
            turn_count := 0 |} with new_session.
  fold heap0. fold user_turn.
  assert (heap0 !!! l = before) as -> by apply session_loc_holds.
  match goal with
  | |- context [_extract_qualification_data env ?u ?d ?w1] =>
      pose proof (extractor_result_by_events env u d (add_events [ClockRead] w) w1 eq_refl)
        as Hsame;
      destruct (extractor_returns env u d w1) as (d' & evs & Hextract & Hevs & Hkeep)
  end.
  rewrite Hextract in Hsame.
  exists d', evs. split; [exact Hsame |]. split; [exact Hevs |]. split; [exact Hkeep |].
  rewrite Hextract. clear Hextract Hsame extracted. run_state.
  destruct (_check_escalation_conditions utterance d') as [|reason message] eqn:Hcheck.
  - run_state.
    match goal with
    | |- context [_generate_ai_response env ?h ?d ?t ?w1] =>
        destruct (generator_returns env h d t w1) as (ai_response & gevs & Hgen & Hgevs)
    end.
    eexists ai_response, gevs, _. split; [exact Hgevs |].
    rewrite Hgen. clear Hgen. run_state.
    destruct (ai_complete ai_response); cbn; f_equal; f_equal; assoc_events.
  - run_state. f_equal. f_equal. assoc_events.
Qed.

Lemma turn_body_run (lead_id utterance call_sid : string) (w : World) :
  let l := session_loc w lead_id in
  let before := session_before w lead_id in
  let heap0 := <[fresh (dom (heap w)) := new_session]> (heap w) in
  let user_turn :=
    mkConversationTurn (utcnow env (length (filter is_clock_read (events w))))
      "user" utterance None (Some (95 # 100)%Q) in
  exists d' evs,
    Forall (fun ev => is_log_error ev = true) evs /\
    (required_fields_none_or_true (qualification_data before) ->
     required_fields_none_or_true d') /\
    let heard :=
      mkSessionContext (conversation_history before ++ [user_turn]) d'
        (turn_count before + 1) in
    let evs1 :=
      events w ++ ClockRead :: CallExtractor
        :: ModelCall (extraction_request utterance (qualification_data before))
        :: evs ++ [CallEvaluator (_check_escalation_conditions utterance d')] in
    match _check_escalation_conditions utterance d' with
    | EscalateNow reason message =>
        process_conversation_turn_body env lead_id (Some utterance) call_sid w
        = (Ok (Escalate reason message),
           mkWorld (active_sessions w) (<[l := heard]> heap0) evs1)
    | NoEscalation =>
        exists ai_response gevs ts,
          quiet gevs /\
          let ai_turn :=
            mkConversationTurn ts "assistant" (ai_message ai_response) None None in
          process_conversation_turn_body env lead_id (Some utterance) call_sid w
          = (Ok (if ai_complete ai_response
                 then Complete (ai_message ai_response) d'
                        (default false (ai_appointment_scheduled ai_response))
                 else Continue (ai_message ai_response) d'),
             mkWorld (<[lead_id := l]> (active_sessions w))
               (<[l := append_turn ai_turn heard]> heap0)
               (evs1 ++ CallGenerator :: gevs ++ [ClockRead]))
    end.
Proof.
  intros l before heap0 user_turn.
  destruct (turn_body_run_data lead_id utterance call_sid w)
    as (d' & evs & _ & Hevs & Hkeep & Hbody).
  exists d', evs. split; [exact Hevs |]. split; [exact Hkeep |]. exact Hbody.
Qed.

Lemma turn_run_some (lead_id utterance call_sid : string) (w : World) :
  process_conversation_turn env lead_id (Some utterance) call_sid w
  = process_conversation_turn_body env lead_id (Some utterance) call_sid w.
Proof.
  unfold process_conversation_turn, try_except.
  destruct (turn_body_run lead_id utterance call_sid w) as (d' & evs & _ & _ & Hrun).
  cbn zeta in Hrun. destruct (_check_escalation_conditions utterance d').
  - destruct Hrun as (ai_response & gevs & ts & _ & ->). done.
  - by rewrite Hrun.
Qed.

Lemma turn_run_none (lead_id call_sid : string) (w : World) :
  process_conversation_turn env lead_id None call_sid w
  = (Ok (Escalate "technical_error" technical_message),
     mkWorld (active_sessions w) (<[fresh (dom (heap w)) := new_session]> (heap w))
       (events w ++ [ClockRead; LogError "Error processing conversation turn" ValidationError])).
Proof.
  unfold process_conversation_turn, try_except. rewrite turn_body_invalid.
  run. unfold add_events, set_heap. cbn. reflexivity.
Qed.

(** C5: a turn always returns and never raises; whatever exception the
    body of the turn raises, the turn logs it and returns the escalation
    with reason "technical_error" and the fixed message. *)
Theorem turn_never_raises (lead_id : string) (user_speech : option string)
    (call_sid : string) (w : World) :
  exists out w',
    process_conversation_turn env lead_id user_speech call_sid w = (Ok out, w')
    /\ forall e w1,
         process_conversation_turn_body env lead_id user_speech call_sid w = (Raise e, w1) ->
         out = Escalate "technical_error" technical_message
         /\ w' = add_events [LogError "Error processing conversation turn" e] w1.
Proof.
  unfold process_conversation_turn, try_except.
  destruct (process_conversation_turn_body env lead_id user_speech call_sid w)
    as [[out|e] w1].
  - exists out, w1. split; [done |]. intros e w2 [=].
  - eexists _, _. split; [reflexivity |]. by intros e' w2 [= <- <-].
Qed.

(** C10: when a turn returns something else than an escalation (the
    evaluator did not fire and no error was met), the session stored under
    the lead is the updated one: its history is the one the turn started
    from with two entries appended, the user's turn with the utterance and
    then the assistant's turn with the message returned; it counts one more
    turn; and its qualification data is what the extractor returns for the
    utterance and the data the turn started from (called once the clock was
    read for the user's turn), which is also the data the turn returns.  The
    outcome may be the one that continues or the one that completes. *)
Theorem turn_appends_two_entries_and_stores (lead_id : string)
    (user_speech : option string) (call_sid : string) (w w' : World) (out : TurnResult) :
  process_conversation_turn env lead_id user_speech call_sid w = (Ok out, w') ->
  is_escalate out = false ->
  exists utterance user_turn ai_turn after,
    user_speech = Some utterance
    /\ speaker user_turn = "user" /\ message user_turn = utterance
    /\ speaker ai_turn = "assistant" /\ message ai_turn = response_of out
    /\ stored_session w' lead_id = Some after
    /\ conversation_history after
       = conversation_history (session_before w lead_id) ++ [user_turn; ai_turn]
    /\ turn_count after = turn_count (session_before w lead_id) + 1
    /\ (_extract_qualification_data env utterance
          (qualification_data (session_before w lead_id)) (add_events [ClockRead] w)).1
       = Ok (qualification_data after)
    /\ data_of out = Some (qualification_data after).
Proof.
  intros Hrun Hout. destruct user_speech as [utterance|].
  2: { rewrite turn_run_none in Hrun. by injection Hrun as <- <-. }
  rewrite turn_run_some in Hrun.
  destruct (turn_body_run_data lead_id utterance call_sid w)
    as (d' & evs & Hdata & _ & _ & Hbody).
  cbn zeta in Hbody. destruct (_check_escalation_conditions utterance d').
  - destruct Hbody as (ai_response & gevs & ts & _ & Hbody).
    rewrite Hbody in Hrun. injection Hrun as <- <-.
    match goal with
    | |- context [stored_session (mkWorld ?a (<[?l := ?c]> ?h) ?evs) _] =>
        assert (stored_session (mkWorld a (<[l := c]> h) evs) lead_id = Some c)
          as ->
    end.
    { unfold stored_session. cbn. rewrite lookup_insert_eq. cbn.
      apply lookup_insert_eq. }
    eexists utterance, _, _, _. split_and!.
    6: reflexivity.
    6: { cbn. rewrite <- app_assoc. reflexivity. }
    all: cbn; try reflexivity.
    + by destruct (ai_complete ai_response).
    + exact Hdata.
    + by destruct (ai_complete ai_response).
  - rewrite Hbody in Hrun. by injection Hrun as <- <-.
Qed.



Lemma events_since_app (w : World) (a : gmap string loc) (h : gmap loc SessionContext)
    (evs : list Event) :
  events_since w (mkWorld a h (events w ++ evs)) = evs.
Proof. unfold events_since. cbn. by rewrite drop_app_length. Qed.

Lemma model_calls_of_logs (evs : list Event) :
  Forall (fun ev => is_log_error ev = true) evs -> filter is_model_call evs = [].
Proof.
  induction 1 as [|ev evs Hev _ IH]; [done |].
  rewrite filter_cons_False; [done |]. destruct ev; cbn in *; by auto.
Qed.





(** What a turn may change of the sessions: it allocates one dict, writes
    the dict it works on, and may store that dict under the lead. *)
Lemma turn_world_shape (lead_id : string) (user_speech : option string)
    (call_sid : string) (w : World) :
  let w' := (process_conversation_turn env lead_id user_speech call_sid w).2 in
  let heap0 := <[fresh (dom (heap w)) := new_session]> (heap w) in
  (active_sessions w' = active_sessions w
   \/ active_sessions w' = <[lead_id := session_loc w lead_id]> (active_sessions w))
  /\ (heap w' = heap0 \/ exists session, heap w' = <[session_loc w lead_id := session]> heap0).
Proof.
  destruct user_speech as [utterance|].
  2: { rewrite turn_run_none. cbn. by split; left. }
  rewrite turn_run_some.
  destruct (turn_body_run lead_id utterance call_sid w) as (d' & evs & _ & _ & Hbody).
  cbn zeta in Hbody. destruct (_check_escalation_conditions utterance d').
  - destruct Hbody as (ai_response & gevs & ts & _ & ->). cbn.
    split; [by right | right; by eexists].
  - rewrite Hbody. cbn. split; [by left | right; by eexists].
Qed.

Lemma session_loc_other (lead_id other : string) (l : loc) (w : World) :
  sessions_wf w -> other <> lead_id -> active_sessions w !! other = Some l ->
  l <> session_loc w lead_id /\ l <> fresh (dom (heap w)).
Proof.
  intros [Halloc Hinj] Hne Hl.
  assert (l <> fresh (dom (heap w))) as Hfresh.
  { intros ->. apply Halloc in Hl. apply elem_of_dom in Hl. by apply is_fresh in Hl. }
  split; [| done]. unfold session_loc.
  destruct (active_sessions w !! lead_id) as [l'|] eqn:Hl'; cbn; [| done].
  intros ->. apply Hne. by eapply Hinj.
Qed.

(** A turn of one lead leaves the stored sessions of the other leads as
    they are: the dict it mutates is the lead's own or a new one. *)
Lemma turn_leaves_other_leads (lead_id other : string) (user_speech : option string)
    (call_sid : string) (w : World) :
  sessions_wf w -> other <> lead_id ->
  stored_session (process_conversation_turn env lead_id user_speech call_sid w).2 other
  = stored_session w other.
Proof.
  intros Hwf Hne.
  destruct (turn_world_shape lead_id user_speech call_sid w) as [Hact Hheap].
  cbn zeta in Hact, Hheap. unfold stored_session.
  assert (active_sessions (process_conversation_turn env lead_id user_speech call_sid w).2
            !! other = active_sessions w !! other) as ->.
  { destruct Hact as [-> | ->]; [done | by rewrite lookup_insert_ne]. }
  destruct (active_sessions w !! other) as [l|] eqn:Hl; [| done]. cbn.
  destruct (session_loc_other lead_id other l w Hwf Hne Hl) as [Hl1 Hl2].
  destruct Hheap as [-> | [session ->]].
  - by rewrite lookup_insert_ne.
  - by rewrite !lookup_insert_ne.
Qed.

(** A turn keeps the sessions well formed. *)
Lemma turn_preserves_sessions_wf (lead_id : string) (user_speech : option string)
    (call_sid : string) (w : World) :
  sessions_wf w ->
  sessions_wf (process_conversation_turn env lead_id user_speech call_sid w).2.
Proof.
  intros Hwf. pose proof Hwf as [Halloc Hinj].
  destruct (turn_world_shape lead_id user_speech call_sid w) as [Hact Hheap].
  cbn zeta in Hact, Hheap.
  set (w' := (process_conversation_turn env lead_id user_speech call_sid w).2) in *.
  assert (forall l, is_Some (heap w !! l) -> is_Some (heap w' !! l)) as Hgrow.
  { intros l Hl. destruct Hheap as [-> | [session ->]].
    - rewrite lookup_insert_is_Some. destruct (decide (fresh (dom (heap w)) = l)); auto.
    - rewrite !lookup_insert_is_Some.
      destruct (decide (session_loc w lead_id = l)); [auto |].
      destruct (decide (fresh (dom (heap w)) = l)); auto. }
  destruct Hact as [Hsame | Hstored].
  - unfold sessions_wf. rewrite Hsame. split; [| done]. intros k l Hl. eauto.
  - unfold sessions_wf. rewrite Hstored. split.
    + intros k l. rewrite lookup_insert. case_decide as Hk.
      * intros [= <-]. destruct Hheap as [-> | [session ->]].
        -- unfold session_loc.
           destruct (active_sessions w !! lead_id) as [l'|] eqn:Hl'; cbn.
           ++ rewrite lookup_insert_is_Some.
              destruct (decide (fresh (dom (heap w)) = l')); eauto.
           ++ by rewrite lookup_insert_eq.
        -- by rewrite lookup_insert_eq.
      * eauto.
    + intros k1 k2 l.
      destruct (decide (k1 = lead_id)) as [-> | Hk1],
               (decide (k2 = lead_id)) as [-> | Hk2]; [done | | |].
      * rewrite lookup_insert_eq, lookup_insert_ne by done. intros [= <-] Hl2.
        by destruct (session_loc_other lead_id k2 _ w Hwf Hk2 Hl2).
      * rewrite lookup_insert_eq, lookup_insert_ne by done. intros Hl1 [= <-].
        by destruct (session_loc_other lead_id k1 _ w Hwf Hk1 Hl1).
      * rewrite !lookup_insert_ne by done. apply Hinj.
Qed.

(** The session stored for the lead after a turn keeps its required
    fields [None] or true, if the session the turn started from had them so:
    in the sessions the orchestrator builds, a required field that is set is
    a true value. *)
Lemma turn_keeps_required_fields (lead_id : string) (user_speech : option string)
    (call_sid : string) (w : World) (session' : SessionContext) :
  required_fields_none_or_true (qualification_data (session_before w lead_id)) ->
  stored_session (process_conversation_turn env lead_id user_speech call_sid w).2 lead_id
  = Some session' ->
  required_fields_none_or_true (qualification_data session').
Proof.
  intros Hbefore. pose proof (session_loc_holds w lead_id) as Hholds.
  unfold stored_session. destruct user_speech as [utterance|].
  2: { rewrite turn_run_none. cbn. unfold session_loc in Hholds.
       destruct (active_sessions w !! lead_id) as [l|]; [| done]. cbn in Hholds |- *.
       intros Hl. apply lookup_total_correct in Hl. congruence. }
  rewrite turn_run_some.
  destruct (turn_body_run lead_id utterance call_sid w) as (d' & evs & _ & Hkeep & Hbody).
  cbn zeta in Hbody. specialize (Hkeep Hbefore).
  destruct (_check_escalation_conditions utterance d').
  - destruct Hbody as (ai_response & gevs & ts & _ & ->). cbn.
    rewrite lookup_insert_eq. cbn. rewrite lookup_insert_eq. by intros [= <-].
  - rewrite Hbody. cbn. unfold session_loc.
    destruct (active_sessions w !! lead_id) as [l|]; [| done]. cbn.
    rewrite lookup_insert_eq. by intros [= <-].
Qed.

(** C2 fails on the escalating outcome.  A turn that escalates returns
    before the dict is put into [active_sessions]: when the lead had no
    session yet, none is stored, and the summary of the session is [None]. *)
Theorem first_turn_escalation_is_not_stored (lead_id : string)
    (user_speech : option string) (call_sid : string) (w w' : World) (out : TurnResult) :
  active_sessions w !! lead_id = None ->
  process_conversation_turn env lead_id user_speech call_sid w = (Ok out, w') ->
  is_escalate out = true ->
  stored_session w' lead_id = None
  /\ get_session_summary lead_id w' = (Ok None, w').
Proof.
  intros Hnew Hrun Hout.
  assert (active_sessions w' = active_sessions w) as Hsame.
  { destruct user_speech as [utterance|].
    2: { rewrite turn_run_none in Hrun. by injection Hrun as <- <-. }
    rewrite turn_run_some in Hrun.
    destruct (turn_body_run lead_id utterance call_sid w) as (d' & evs & _ & _ & Hbody).
    cbn zeta in Hbody. destruct (_check_escalation_conditions utterance d').
    - destruct Hbody as (ai_response & gevs & ts & _ & Hbody).
      rewrite Hbody in Hrun. injection Hrun as <- <-.
      by destruct (ai_complete ai_response).
    - rewrite Hbody in Hrun. by injection Hrun as <- <-. }
  unfold stored_session, get_session_summary. by rewrite Hsame, Hnew.
Qed.

(** When the lead has a session, the escalating turn has mutated the
    stored dict itself: the user's turn and the count are in the session
    that [active_sessions] holds, although the turn stored nothing. *)
Lemma later_turn_escalation_updates_in_place (lead_id utterance call_sid : string)
    (w w' : World) (out : TurnResult) :
  is_Some (active_sessions w !! lead_id) ->
  process_conversation_turn env lead_id (Some utterance) call_sid w = (Ok out, w') ->
  is_escalate out = true ->
  exists user_turn after,
    message user_turn = utterance
    /\ stored_session w' lead_id = Some after
    /\ conversation_history after
       = conversation_history (session_before w lead_id) ++ [user_turn]
    /\ turn_count after = turn_count (session_before w lead_id) + 1.
Proof.
  intros [l Hl] Hrun Hout. rewrite turn_run_some in Hrun.
  destruct (turn_body_run lead_id utterance call_sid w) as (d' & evs & _ & _ & Hbody).
  cbn zeta in Hbody. destruct (_check_escalation_conditions utterance d').
  - destruct Hbody as (ai_response & gevs & ts & _ & Hbody).
    rewrite Hbody in Hrun. injection Hrun as <- <-.
    by destruct (ai_complete ai_response).
  - rewrite Hbody in Hrun. injection Hrun as <- <-.
    eexists _, _. split_and!.
    2: { unfold stored_session, session_loc. cbn. rewrite Hl. cbn.
         apply lookup_insert_eq. }
    2: reflexivity.
    all: reflexivity.
Qed.

End Orchestrator.

(** ** The extractor and the pain level *)

(** C3 fails in the code.  When the reply of the model is a JSON object
    whose keys are fields of the data (or no attributes of it at all) and
    whose "pain_level" is a true value that matches no rule of the
    normalisation, the extractor returns the data with the pain level unset,
    whatever it was before, and with the urgency recomputed from that, to
    low; no error is logged.  The specification keeps the prior value. *)
Theorem extractor_unsets_unmatched_pain_level env (user_input : string)
    (d : QualificationData) (w : World) (text : string) (rest : list (option string))
    (items : list (string * Py.val)) (value : Py.val) :
  chat_completions_create env (length (filter is_model_call (events w)))
    (extraction_request user_input d) = Ok (Some text :: rest) ->
  json_loads env text = Ok (Py.VDict items) ->
  NoDup items.*1 ->
  Forall (plain_item env) items ->
  ("pain_level", value) ∈ items ->
  Py.truthy value = true ->
  _normalize_pain_level value = None ->
  exists d',
    _extract_qualification_data env user_input d w
    = (Ok d', add_events [CallExtractor; ModelCall (extraction_request user_input d)] w)
    /\ pain_level d' = None
    /\ urgency d' = Urgency UrgencyLevel.LOW.
Proof.
  intros Hreply Hjson Hnodup Hplain Hin Htrue Hnone.
  pose proof (apply_items_plain_ok env items d Hplain) as Hok.
  pose proof (apply_items_unsets_pain_level env items d value
                Hnodup Hin Htrue Hnone Hok) as Hpain.
  unfold _extract_qualification_data, try_except. run.
  cbn [events add_events]. rewrite model_calls_after_call by done.
  rewrite Hreply. run. cbn [first_content mbind Result_bind loads]. rewrite Hjson. run.
  cbn [items_of]. run.
  destruct (apply_items env items d) as [looped d1]. cbn in Hok, Hpain. subst looped.
  run. eexists. split; [reflexivity |]. split; [exact Hpain |].
  cbn. unfold _calculate_urgency. by rewrite Hpain.
Qed.

Lemma extractor_unsets_witness :
  exists d',
    _extract_qualification_data (constant_env awful_json) "it feels awful"
      (set_pain_level (Some PainLevel.EMERGENCY) QualificationData_new) empty_world
    = (Ok d',
       add_events
         [CallExtractor;
          ModelCall (extraction_request "it feels awful"
                       (set_pain_level (Some PainLevel.EMERGENCY) QualificationData_new))]
         empty_world)
    /\ pain_level d' = None
    /\ urgency d' = Urgency UrgencyLevel.LOW.
Proof.
  apply (extractor_unsets_unmatched_pain_level (constant_env awful_json) "it feels awful"
           (set_pain_level (Some PainLevel.EMERGENCY) QualificationData_new) empty_world
           awful_json [] [("pain_level", Py.VStr "awful")] (Py.VStr "awful")).
  - reflexivity.
  - reflexivity.
  - repeat constructor. by intros ?%elem_of_nil.
  - constructor; [| constructor]. left. unfold field_names. cbn. repeat constructor.
  - constructor.
  - reflexivity.
  - reflexivity.
Defined.

(** The failing run of C3: a lead's session holds the severe pain level;
    the model then answers ["pain_level": "awful"], which no rule matches;
    after the turn the session stored for the lead has no pain level. *)
Lemma unmatched_pain_level_overwrites_session :
  let w := world_with "lead-1" severe_session in
  let w' := (process_conversation_turn (constant_env awful_json) "lead-1"
               (Some "it feels awful") "CA1" w).2 in
  _normalize_pain_level (Py.VStr "awful") = None
  /\ stored_pain_level w "lead-1" = Some (Some PainLevel.SEVERE)
  /\ stored_pain_level w' "lead-1" = Some None.
Proof. repeat split; vm_compute; reflexivity. Qed.

(** ** The orchestrator on concrete runs *)

Lemma turn_never_raises_witness :
  process_conversation_turn_body outage_env "lead-1" None "CA1" empty_world
  = (Raise ValidationError,
     add_events [ClockRead]
       (set_heap (insert (fresh (dom (heap empty_world))) new_session) empty_world))
  /\ (process_conversation_turn outage_env "lead-1" None "CA1" empty_world).1
     = Ok (Escalate "technical_error" technical_message).
Proof.
  split; [reflexivity |].
  destruct (turn_never_raises outage_env "lead-1" None "CA1" empty_world)
    as (out & w' & Hrun & Hfault).
  rewrite Hrun. cbn [fst].
  by destruct (Hfault _ _ (turn_body_invalid outage_env "lead-1" "CA1" empty_world))
    as [-> _].
Defined.

Lemma turn_appends_witness :
  let env := constant_env awful_json in
  let w := world_with "lead-1" severe_session in
  exists utterance user_turn ai_turn after,
    Some "it feels awful" = Some utterance
    /\ speaker user_turn = "user" /\ message user_turn = utterance
    /\ speaker ai_turn = "assistant" /\ message ai_turn = awful_json
    /\ stored_session
         (process_conversation_turn env "lead-1" (Some "it feels awful") "CA1" w).2
         "lead-1" = Some after
    /\ conversation_history after
       = conversation_history (session_before w "lead-1") ++ [user_turn; ai_turn]
    /\ turn_count after = turn_count (session_before w "lead-1") + 1
    /\ (_extract_qualification_data env utterance
          (qualification_data (session_before w "lead-1")) (add_events [ClockRead] w)).1
       = Ok (qualification_data after)
    /\ data_of (Continue awful_json QualificationData_new)
       = Some (qualification_data after).
Proof.
  apply (turn_appends_two_entries_and_stores (constant_env awful_json) "lead-1"
           (Some "it feels awful") "CA1" (world_with "lead-1" severe_session) _
           (Continue awful_json QualificationData_new)).
  - vm_compute. reflexivity.
  - reflexivity.
Defined.

Lemma first_turn_escalation_witness :
  let result := process_conversation_turn outage_env "lead-1" (Some breath_utterance)
                  "CA1" empty_world in
  result.1 = Ok (Escalate "emergency_condition"
                   "This sounds like it needs immediate attention. I'm connecting you with our emergency dental team right now.")
  /\ stored_session result.2 "lead-1" = None
  /\ get_session_summary "lead-1" result.2 = (Ok None, result.2).
Proof.
  split; [reflexivity |].
  apply (first_turn_escalation_is_not_stored outage_env "lead-1" (Some breath_utterance)
           "CA1" empty_world _
           (Escalate "emergency_condition"
              "This sounds like it needs immediate attention. I'm connecting you with our emergency dental team right now.")).
  - reflexivity.
  - vm_compute. reflexivity.
  - reflexivity.
Defined.


(** Two turns of one lead: the first continues, the second completes at
    the hand-off of a model that is down, and the session holds four turns. *)
Example two_turns :
  let w1 := (process_conversation_turn (constant_env "Since when?") "lead-1"
               (Some "My tooth hurts") "CA1" empty_world).2 in
  let result := process_conversation_turn outage_env "lead-1" (Some "Since Monday")
                  "CA1" w1 in
  result.1 = Ok (Complete handoff_message QualificationData_new false)
  /\ (length ∘ conversation_history <$> stored_session result.2 "lead-1") = Some 4%nat
  /\ (turn_count <$> stored_session result.2 "lead-1") = Some 2.
Proof. repeat split; vm_compute; reflexivity. Qed.

(** * More properties of the code *)

(** ** Phone numbers and the do-not-call list *)

Section Phones.

Implicit Types (s t : string).

Lemma keep_digits_idempotent s : keep_digits (keep_digits s) = keep_digits s.
Proof.
  induction s as [|c s IH]; [done |]. cbn.
  destruct (is_digit c) eqn:Hc; [| done]. cbn. by rewrite Hc, IH.
Qed.

Lemma keep_digits_digits s :
  Forall (fun c => is_digit c = true) (list_ascii_of_string (keep_digits s)).
Proof.
  induction s as [|c s IH]; [constructor |]. cbn.
  destruct (is_digit c) eqn:Hc; [| done]. cbn. by constructor.
Qed.

Lemma keep_digits_of_digits s :
  Forall (fun c => is_digit c = true) (list_ascii_of_string s) -> keep_digits s = s.
Proof.
  induction s as [|c s IH]; [done |]. cbn. intros [Hc Hs]%Forall_cons_1.
  by rewrite Hc, IH.
Qed.

(** X1: the normalised form of a phone number is made of digits only, is
    never ten digits long (a ten-digit number gets the country code 1), and
    is its own normalised form. *)
Theorem normalize_phone_number_canonical s :
  exists normalized,
    _normalize_phone_number (Py.VStr s) = Ok normalized
    /\ Forall (fun c => is_digit c = true) (list_ascii_of_string normalized)
    /\ String.length normalized <> 10%nat
    /\ _normalize_phone_number (Py.VStr normalized) = Ok normalized.
Proof.
  unfold _normalize_phone_number.
  pose proof (keep_digits_digits s) as Hdigits.
  destruct (String.length (keep_digits s) =? 10)%nat eqn:Hlen.
  - apply Nat.eqb_eq in Hlen. eexists. split; [reflexivity |].
    assert (Forall (fun c => is_digit c = true)
              (list_ascii_of_string ("1" +:+ keep_digits s))) as Hall.
    { change ("1" +:+ keep_digits s) with (String "1" (keep_digits s)).
      cbn. by constructor. }
    split; [exact Hall |]. split.
    + change ("1" +:+ keep_digits s) with (String "1" (keep_digits s)). cbn. lia.
    + rewrite (keep_digits_of_digits _ Hall).
      replace (String.length ("1" +:+ keep_digits s) =? 10)%nat with false; [done |].
      symmetry. apply Nat.eqb_neq.
      change ("1" +:+ keep_digits s) with (String "1" (keep_digits s)). cbn. lia.
  - apply Nat.eqb_neq in Hlen. eexists. split; [reflexivity |].
    split; [exact Hdigits |]. split; [exact Hlen |].
    by rewrite keep_digits_idempotent, (proj2 (Nat.eqb_neq _ _) Hlen).
Qed.

(** X2: a ten-digit number and the same number written with the country
    code 1 have one normalised form, whatever punctuation either carries. *)
Theorem normalize_phone_number_country_code s t :
  String.length (keep_digits s) = 10%nat ->
  keep_digits t = "1" +:+ keep_digits s ->
  _normalize_phone_number (Py.VStr t) = _normalize_phone_number (Py.VStr s).
Proof.
  intros Hs Ht. unfold _normalize_phone_number. rewrite Ht.
  rewrite (proj2 (Nat.eqb_eq _ _) Hs).
  replace (String.length ("1" +:+ keep_digits s) =? 10)%nat with false; [done |].
  symmetry. apply Nat.eqb_neq.
  change ("1" +:+ keep_digits s) with (String "1" (keep_digits s)). cbn. lia.
Qed.

Lemma normalize_phone_number_country_code_witness :
  _normalize_phone_number (Py.VStr "+1 555-123-4567")
  = _normalize_phone_number (Py.VStr "(555) 123-4567").
Proof.
  apply normalize_phone_number_country_code; reflexivity.
Defined.

End Phones.

Section DoNotCall.

Implicit Types (s : DNCService) (p q : Py.val) (n m : string).

(** X3: a number added to the list is reported as listed, however the
    number asked about is written, as long as both have one normalised form;
    adding it again changes nothing of the list. *)
Theorem dnc_add_then_check p q n s :
  _normalize_phone_number p = Ok n ->
  _normalize_phone_number q = Ok n ->
  (add_to_dnc_list p s).1 = true
  /\ (check_dnc_status q (add_to_dnc_list p s).2).1 = true
  /\ dnc_set (add_to_dnc_list p (add_to_dnc_list p s).2).2 = dnc_set (add_to_dnc_list p s).2.
Proof.
  intros Hp Hq. unfold add_to_dnc_list, check_dnc_status.
  rewrite ?Hp, ?Hq. cbn. rewrite ?Hp, ?Hq. cbn. split; [done |]. split.
  - apply bool_decide_eq_true, elem_of_union_l. by apply elem_of_singleton.
  - apply set_eq. intros x. rewrite !elem_of_union. tauto.
Qed.

Lemma dnc_add_then_check_witness :
  (check_dnc_status (Py.VStr "+1 555-123-4567")
     (add_to_dnc_list (Py.VStr "(555) 123-4567") DNCService_new).2).1 = true.
Proof.
  apply (dnc_add_then_check (Py.VStr "(555) 123-4567") (Py.VStr "+1 555-123-4567")
           "15551234567" DNCService_new); reflexivity.
Defined.

(** X4: after a number is removed it is reported as not listed; removing a
    number that is not listed succeeds as well and leaves the list as it is. *)
Theorem dnc_remove_then_check p q n s :
  _normalize_phone_number p = Ok n ->
  _normalize_phone_number q = Ok n ->
  (remove_from_dnc_list p s).1 = true
  /\ (check_dnc_status q (remove_from_dnc_list p s).2).1 = false
  /\ (n ∉ dnc_set s -> dnc_set (remove_from_dnc_list p s).2 = dnc_set s).
Proof.
  intros Hp Hq. unfold remove_from_dnc_list, check_dnc_status. rewrite ?Hp, ?Hq.
  destruct (bool_decide (n ∈ dnc_set s)) eqn:Hin; cbn; rewrite ?Hq; cbn.
  - apply bool_decide_eq_true in Hin. split; [done |]. split.
    + apply bool_decide_eq_false. rewrite elem_of_difference, elem_of_singleton. tauto.
    + done.
  - apply bool_decide_eq_false in Hin. split; [done |]. split.
    + by apply bool_decide_eq_false.
    + done.
Qed.

Lemma dnc_remove_then_check_witness :
  let listed := (add_to_dnc_list (Py.VStr "(555) 123-4567") DNCService_new).2 in
  (check_dnc_status (Py.VStr "555.123.4567")
     (remove_from_dnc_list (Py.VStr "1-555-123-4567") listed).2).1 = false.
Proof.
  intros listed.
  apply (dnc_remove_then_check (Py.VStr "1-555-123-4567") (Py.VStr "555.123.4567")
           "15551234567" listed); reflexivity.
Defined.

(** X5: adding or removing a number leaves the status of every number with
    another normalised form as it was. *)
Theorem dnc_other_numbers_untouched p q n m s :
  _normalize_phone_number p = Ok n ->
  _normalize_phone_number q = Ok m ->
  n <> m ->
  (check_dnc_status q (add_to_dnc_list p s).2).1 = (check_dnc_status q s).1
  /\ (check_dnc_status q (remove_from_dnc_list p s).2).1 = (check_dnc_status q s).1.
Proof.
  intros Hp Hq Hne. unfold add_to_dnc_list, remove_from_dnc_list, check_dnc_status.
  rewrite ?Hp, ?Hq. cbn. rewrite ?Hq. cbn. split.
  - apply bool_decide_ext. rewrite elem_of_union, elem_of_singleton. intuition congruence.
  - destruct (bool_decide (n ∈ dnc_set s)); cbn; rewrite ?Hq; cbn; [| done].
    apply bool_decide_ext. rewrite elem_of_difference, elem_of_singleton.
    intuition congruence.
Qed.

Lemma dnc_other_numbers_untouched_witness :
  let listed := (add_to_dnc_list (Py.VStr "555-000-1111") DNCService_new).2 in
  (check_dnc_status (Py.VStr "555-000-1111")
     (add_to_dnc_list (Py.VStr "555-123-4567") listed).2).1
  = (check_dnc_status (Py.VStr "555-000-1111") listed).1
  /\ (check_dnc_status (Py.VStr "555-000-1111")
        (remove_from_dnc_list (Py.VStr "555-123-4567") listed).2).1
     = (check_dnc_status (Py.VStr "555-000-1111") listed).1.
Proof.
  intros listed.
  apply (dnc_other_numbers_untouched (Py.VStr "555-123-4567") (Py.VStr "555-000-1111")
           "15551234567" "15550001111" listed); [reflexivity | reflexivity | discriminate].
Defined.

Lemma bulk_add_loop_ok (phones : list Py.val) (set : gset string) :
  Forall (fun p => is_ok (_normalize_phone_number p) = true) phones ->
  exists set',
    bulk_add_loop phones set = (Ok (), set')
    /\ set ⊆ set'
    /\ (forall p n, p ∈ phones -> _normalize_phone_number p = Ok n -> n ∈ set')
    /\ (size set' <= size set + length phones)%nat.
Proof.
  revert set. induction phones as [|p phones IH]; intros set Hok.
  { exists set. split; [done |]. split; [done |]. split; [| cbn; lia].
    intros p n Hin. by apply elem_of_nil in Hin. }
  apply Forall_cons_1 in Hok as [Hp Hok]. cbn.
  destruct (_normalize_phone_number p) as [n|e] eqn:Hn; [| done].
  destruct (IH ({[n]} ∪ set) Hok) as (set' & -> & Hsub & Hall & Hsize).
  exists set'. split; [done |]. split; [| split].
  - intros x Hx. apply Hsub, elem_of_union_r, Hx.
  - intros q m [-> | Hq]%elem_of_cons Hm.
    + rewrite Hn in Hm. injection Hm as <-.
      apply Hsub, elem_of_union_l. by apply elem_of_singleton.
    + by eapply Hall.
  - assert (size ({[n]} ∪ set) <= 1 + size set)%nat as Hone.
    { rewrite size_union_alt, size_singleton.
      assert (size (set ∖ {[n]}) <= size set)%nat; [| lia].
      apply subseteq_size. intros x. rewrite elem_of_difference. tauto. }
    cbn. lia.
Qed.

(** X6: when every number of the batch is a string, the bulk add succeeds:
    every number of the batch is listed afterwards, what was listed stays
    listed, and the list grows by at most the size of the batch. *)
Theorem dnc_bulk_add_lists_all (phones : list Py.val) s :
  Forall (fun p => is_ok (_normalize_phone_number p) = true) phones ->
  (bulk_add_to_dnc_list phones s).1 = true
  /\ (forall p, p ∈ phones -> (check_dnc_status p (bulk_add_to_dnc_list phones s).2).1 = true)
  /\ dnc_set s ⊆ dnc_set (bulk_add_to_dnc_list phones s).2
  /\ get_dnc_count (bulk_add_to_dnc_list phones s).2
     <= get_dnc_count s + Z.of_nat (length phones).
Proof.
  intros Hok. unfold bulk_add_to_dnc_list.
  destruct (bulk_add_loop_ok phones (dnc_set s) Hok) as (set' & -> & Hsub & Hall & Hsize).
  cbn. split; [done |]. split; [| split; [done |]].
  - intros p Hp. unfold check_dnc_status.
    rewrite Forall_forall in Hok. specialize (Hok p Hp).
    destruct (_normalize_phone_number p) as [n|e] eqn:Hn; [| done]. cbn.
    apply bool_decide_eq_true. by eapply Hall.
  - unfold get_dnc_count. cbn. lia.
Qed.

Lemma dnc_bulk_add_lists_all_witness :
  let batch := [Py.VStr "555-123-4567"; Py.VStr "+1 (555) 123-4567"; Py.VStr "555 000 1111"] in
  (bulk_add_to_dnc_list batch DNCService_new).1 = true
  /\ get_dnc_count (bulk_add_to_dnc_list batch DNCService_new).2
     <= get_dnc_count DNCService_new + 3.
Proof.
  intros batch.
  destruct (dnc_bulk_add_lists_all batch DNCService_new) as (Hret & _ & _ & Hcount).
  - repeat constructor.
  - by split.
Defined.

(** X7: a batch with an entry that is no string fails, but not as a
    whole: the numbers before that entry stay added, the entries after it
    are not looked at, and the call returns false. *)
Theorem dnc_bulk_add_stops_at_bad_entry (good rest : list Py.val) (bad : Py.val) s :
  Forall (fun p => is_ok (_normalize_phone_number p) = true) good ->
  is_ok (_normalize_phone_number bad) = false ->
  (bulk_add_to_dnc_list (good ++ bad :: rest) s).1 = false
  /\ dnc_set (bulk_add_to_dnc_list (good ++ bad :: rest) s).2
     = dnc_set (bulk_add_to_dnc_list good s).2.
Proof.
  intros Hgood Hbad. unfold bulk_add_to_dnc_list.
  assert (forall set,
            (bulk_add_loop (good ++ bad :: rest) set).2 = (bulk_add_loop good set).2
            /\ is_ok (bulk_add_loop (good ++ bad :: rest) set).1 = false) as Hloop.
  { induction good as [|p good IH]; intros set; cbn.
    - by destruct (_normalize_phone_number bad).
    - apply Forall_cons_1 in Hgood as [Hp Hgood].
      destruct (_normalize_phone_number p); [by apply IH | done]. }
  destruct (Hloop (dnc_set s)) as [Hset Hfail].
  destruct (bulk_add_loop (good ++ bad :: rest) (dnc_set s)) as [[[]|e] set1]; [done |].
  destruct (bulk_add_loop good (dnc_set s)) as [[[]|e'] set2]; cbn in *; by subst.
Qed.

Lemma dnc_bulk_add_stops_witness :
  let batch := [Py.VStr "555-123-4567"; Py.VNone; Py.VStr "555 000 1111"] in
  (bulk_add_to_dnc_list batch DNCService_new).1 = false
  /\ dnc_set (bulk_add_to_dnc_list batch DNCService_new).2
     = dnc_set (bulk_add_to_dnc_list [Py.VStr "555-123-4567"] DNCService_new).2.
Proof.
  intros batch.
  apply (dnc_bulk_add_stops_at_bad_entry [Py.VStr "555-123-4567"]
           [Py.VStr "555 000 1111"] Py.VNone DNCService_new).
  - repeat constructor.
  - reflexivity.
Defined.

(** X8: asked about something that is no string, the check fails safe and
    reports it as listed; adding or removing it returns false; none of the
    three changes the list. *)
Theorem dnc_fails_safe_on_non_string p s :
  (forall text, p <> Py.VStr text) ->
  (check_dnc_status p s).1 = true
  /\ (add_to_dnc_list p s).1 = false
  /\ (remove_from_dnc_list p s).1 = false
  /\ dnc_set (check_dnc_status p s).2 = dnc_set s
  /\ dnc_set (add_to_dnc_list p s).2 = dnc_set s
  /\ dnc_set (remove_from_dnc_list p s).2 = dnc_set s.
Proof.
  intros Hp. unfold check_dnc_status, add_to_dnc_list, remove_from_dnc_list.
  destruct p as [| | | |text| |]; try done. by destruct (Hp text).
Qed.

Lemma dnc_fails_safe_witness :
  (check_dnc_status Py.VNone DNCService_new).1 = true
  /\ (add_to_dnc_list (Py.VInt 5551234567) DNCService_new).1 = false.
Proof.
  split.
  - by destruct (dnc_fails_safe_on_non_string Py.VNone DNCService_new) as (H & _).
  - by destruct (dnc_fails_safe_on_non_string (Py.VInt 5551234567) DNCService_new)
      as (_ & H & _).
Defined.

End DoNotCall.

(** ** The evaluator, the pain scale and the escalation predicate *)

Section Evaluator.

Implicit Types (u s a b needle : string) (d : QualificationData).

Lemma scan_keywords_escalates (keywords : list string) s :
  escalate (scan_keywords keywords s) = true
  <-> Exists (fun keyword => Py.contains keyword s = true) keywords.
Proof.
  induction keywords as [|k ks IH]; cbn.
  - split; [done | by intros ?%Exists_nil].
  - destruct (Py.contains k s) eqn:Hk; cbn.
    + split; [by left | done].
    + rewrite IH. split; [by right |]. intros [? | ?]%Exists_cons; [congruence | done].
Qed.

(** X9: the evaluator escalates exactly when the pain level of the data is
    the emergency one or the lower-cased utterance contains one of the
    thirteen keywords; nothing else of the data or of the utterance counts. *)
Theorem evaluator_escalates_iff u d :
  escalate (_check_escalation_conditions u d) = true
  <-> pain_level d = Some PainLevel.EMERGENCY
      \/ Exists (fun keyword => Py.contains keyword (Py.lower u) = true) emergency_keywords.
Proof.
  unfold _check_escalation_conditions.
  destruct (decide (pain_level d = Some PainLevel.EMERGENCY)) as [Hpain | Hpain].
  - rewrite bool_decide_eq_true_2 by done. by split; [left |].
  - rewrite bool_decide_eq_false_2 by done. rewrite scan_keywords_escalates.
    split; [by right |]. by intros [? | ?].
Qed.

Lemma lower_append a b : Py.lower (a +:+ b) = Py.lower a +:+ Py.lower b.
Proof.
  induction a as [|c a IH]; [done |].
  change (String c a +:+ b) with (String c (a +:+ b)). cbn [Py.lower]. by rewrite IH.
Qed.

Lemma startswith_append needle a b :
  Py.startswith needle a = true -> Py.startswith needle (a +:+ b) = true.
Proof.
  revert a. induction needle as [|c needle IH]; intros [|c' a]; cbn; try done.
  intros [Hc Ha]%andb_prop. change (String c' a +:+ b) with (String c' (a +:+ b)).
  cbn [Py.startswith]. by rewrite Hc, IH.
Qed.

Lemma contains_append_l needle a b :
  Py.contains needle a = true -> Py.contains needle (a +:+ b) = true.
Proof.
  induction a as [|c a IH].
  - cbn. rewrite orb_false_r. destruct needle; [| done]. by destruct b.
  - cbn [Py.contains]. change (String c a +:+ b) with (String c (a +:+ b)).
    cbn [Py.contains]. intros [H%(startswith_append _ _ b) | H%IH]%orb_prop.
    + change (String c a +:+ b) with (String c (a +:+ b)) in H. by rewrite H.
    + by rewrite H, orb_true_r.
Qed.

Lemma contains_append_r needle a b :
  Py.contains needle b = true -> Py.contains needle (a +:+ b) = true.
Proof.
  intros Hb. induction a as [|c a IH]; [done |].
  change (String c a +:+ b) with (String c (a +:+ b)). cbn [Py.contains].
  by rewrite IH, orb_true_r.
Qed.

(** X10: what the caller says before or after does not mask an emergency:
    if the evaluator escalates on an utterance, it escalates on every
    utterance that contains it. *)
Theorem evaluator_escalates_in_context u a b d :
  escalate (_check_escalation_conditions u d) = true ->
  escalate (_check_escalation_conditions (a +:+ u +:+ b) d) = true.
Proof.
  unfold _check_escalation_conditions.
  destruct (bool_decide (pain_level d = Some PainLevel.EMERGENCY)); [done |].
  destruct (scan_keywords emergency_keywords (Py.lower u)) eqn:Hscan; [done |].
  intros _.
  destruct (scan_keywords emergency_keywords (Py.lower (a +:+ u +:+ b))) eqn:Hlong; [| done].
  exfalso. apply scan_keywords_none in Hlong.
  assert (scan_keywords emergency_keywords (Py.lower u) = NoEscalation); [| congruence].
  apply scan_keywords_none. eapply Forall_impl; [exact Hlong |]. cbn.
  intros k Hk. destruct (Py.contains k (Py.lower u)) eqn:Hfound; [| done].
  rewrite !lower_append in Hk.
  by rewrite (contains_append_r _ _ _ (contains_append_l _ _ (Py.lower b) Hfound)) in Hk.
Qed.

Lemma evaluator_escalates_in_context_witness :
  escalate (_check_escalation_conditions
              ("Well, since the " +:+ "ACCIDENT" +:+ " it got worse")
              QualificationData_new) = true.
Proof.
  apply (evaluator_escalates_in_context "ACCIDENT" "Well, since the " " it got worse").
  reflexivity.
Defined.

End Evaluator.

Section PainScale.

Lemma lower_char_digit (c : ascii) : is_digit c = true -> Py.lower_char c = c.
Proof. destruct c as [[] [] [] [] [] [] [] []]; by cbn. Qed.

Lemma digit_cases (c : ascii) :
  is_digit c = true ->
  c ∈ ["0"; "1"; "2"; "3"; "4"; "5"; "6"; "7"; "8"; "9"]%char.
Proof.
  destruct c as [[] [] [] [] [] [] [] []]; cbn; try done; intros _;
    repeat constructor.
Qed.

Lemma contains_char (c : ascii) (s : string) :
  c ∈ list_ascii_of_string s -> Py.contains (String c "") s = true.
Proof.
  induction s as [|c' s IH]; cbn [list_ascii_of_string].
  - by intros ?%elem_of_nil.
  - intros [-> | Hin]%elem_of_cons; cbn.
    + by rewrite Ascii.eqb_refl.
    + by rewrite IH, orb_true_r.
Qed.

Lemma lower_keeps_digit (c : ascii) (s : string) :
  is_digit c = true -> c ∈ list_ascii_of_string s -> c ∈ list_ascii_of_string (Py.lower s).
Proof.
  intros Hc. induction s as [|c' s IH]; cbn [list_ascii_of_string Py.lower]; [done |].
  intros [-> | Hin]%elem_of_cons.
  - rewrite lower_char_digit by done. constructor.
  - constructor. by apply IH.
Qed.

(** X11: a pain level whose text has a decimal digit in it is never left
    unset by the normalisation: one of the five numeric rules takes it. *)
Theorem normalize_digit_is_never_unset (pain_input : Py.val) (c : ascii) :
  is_digit c = true ->
  c ∈ list_ascii_of_string (Py.str pain_input) ->
  _normalize_pain_level pain_input <> None.
Proof.
  intros Hc Hin.
  pose proof (contains_char c _ (lower_keeps_digit c _ Hc Hin)) as Hfound.
  pose proof (digit_cases c Hc) as Hcases.
  unfold _normalize_pain_level, Py.any_in. cbn [existsb].
  set (text := Py.lower (Py.str pain_input)) in *.
  repeat (apply elem_of_cons in Hcases as [-> | Hcases];
          [rewrite Hfound; cbn; rewrite ?orb_true_r; cbn;
           repeat (match goal with
                   | |- context [if ?b then _ else _] => destruct b; try done
                   end);
           try done |]).
  by apply elem_of_nil in Hcases.
Qed.

Lemma normalize_digit_witness :
  _normalize_pain_level (Py.VStr "I'd say a 6, hard to tell") <> None.
Proof.
  apply (normalize_digit_is_never_unset _ "6"%char); [reflexivity |].
  cbn. repeat constructor.
Defined.

(** X12: on data typed as declared (the chief complaint a string or
    [None], the emergency indicators a list) [requires_escalation] returns,
    and it is true exactly when the pain level is the emergency one, or the
    lower-cased complaint contains "swelling", "fever", "trauma" or
    "bleeding", or the list of indicators is not empty. *)
Theorem requires_escalation_typed (d : QualificationData) (indicators : list Py.val) :
  typed_complaint d ->
  emergency_indicators d = Py.VList indicators ->
  requires_escalation d
  = Ok (bool_decide (pain_level d = Some PainLevel.EMERGENCY)
        || Py.any_in ["swelling"; "fever"; "trauma"; "bleeding"]
             (Py.lower (complaint_text d))
        || bool_decide (indicators <> [])).
Proof.
  intros Hcc Hind. unfold requires_escalation, complaint_text. rewrite Hind.
  assert (or_empty_lower (chief_complaint d)
          = Ok (Py.lower match chief_complaint d with Py.VStr s => s | _ => "" end)) as ->.
  { destruct Hcc as [-> | [s ->]]; [done |]. unfold or_empty_lower. cbn.
    destruct (String.eqb_spec s "") as [-> | _]; done. }
  cbn. f_equal. unfold Py.any_in. cbn [existsb].
  destruct indicators; cbn; rewrite ?orb_false_r, ?orb_true_r, ?orb_assoc; done.
Qed.

Lemma requires_escalation_typed_witness :
  requires_escalation
    (mkQualificationData (Py.VStr "Bleeding gums") None (Urgency UrgencyLevel.LOW)
       Py.VNone Py.VNone Py.VNone (Py.VList []) (Py.VList []) (Py.VList []))
  = Ok true.
Proof.
  rewrite (requires_escalation_typed _ []); [reflexivity | | reflexivity].
  right. by eexists.
Defined.

(** X13: [requires_escalation] raises when the chief complaint is a true
    value that is no string, as the extractor may leave it (a list, a
    number), and it does so even when the pain level is the emergency one. *)
Theorem requires_escalation_raises_on_untyped_complaint (d : QualificationData) :
  Py.truthy (chief_complaint d) = true ->
  (forall s, chief_complaint d <> Py.VStr s) ->
  requires_escalation d = Raise AttributeError.
Proof.
  intros Htrue Hstr. unfold requires_escalation, or_empty_lower. rewrite Htrue.
  destruct (chief_complaint d) as [| | | |s| |]; try done. by destruct (Hstr s).
Qed.

Lemma requires_escalation_raises_witness :
  requires_escalation
    (mkQualificationData (Py.VList [Py.VStr "toothache"]) (Some PainLevel.EMERGENCY)
       (Urgency UrgencyLevel.EMERGENCY) Py.VNone Py.VNone Py.VNone
       (Py.VList []) (Py.VList []) (Py.VList []))
  = Raise AttributeError.
Proof.
  by apply requires_escalation_raises_on_untyped_complaint.
Defined.

End PainScale.

(** ** The extractor on every reply *)

Section Extraction.

Context (env : Env).

Lemma apply_items_app (pre rest : list (string * Py.val)) (d : QualificationData) :
  apply_items env (pre ++ rest) d
  = match apply_items env pre d with
    | (Ok _, d1) => apply_items env rest d1
    | (Raise e, d1) => (Raise e, d1)
    end.
Proof.
  revert d. induction pre as [|[key value] pre IH]; intros d; cbn [app apply_items].
  - reflexivity.
  - destruct (Py.truthy value && hasattr env key); [| apply IH].
    destruct (String.eqb key "pain_level"); [apply IH |].
    destruct (setattr env d key value); [apply IH | reflexivity].
Qed.

Lemma setattr_non_field (d : QualificationData) (key : string) (value : Py.val) :
  key ∉ field_names ->
  setattr env d key value
  = match assign_attribute env key value with
    | Ok _ => Ok d
    | Raise e => Raise e
    end.
Proof.
  intros Hkey. unfold setattr.
  repeat (match goal with
          | |- context [String.eqb key ?f] =>
              destruct (String.eqb_spec key f) as [-> | _];
              [exfalso; apply Hkey; unfold field_names; repeat constructor |]
          end).
  reflexivity.
Qed.

Lemma apply_items_passed_over (items : list (string * Py.val)) (d : QualificationData) :
  Forall (passed_over env) items -> apply_items env items d = (Ok (), d).
Proof.
  induction 1 as [|[key value] items Hitem _ IH]; cbn [apply_items]; [done |].
  destruct Hitem as [Hv | Hk].
  - cbn in Hv. by rewrite Hv.
  - cbn in Hk. by rewrite Hk, andb_false_r.
Qed.

(** X14: the extractor fails soft.  When the reply of the model cannot be
    read as the items of a JSON object (the call raised, the reply has no
    choice or no content, the text does not parse, or it parses to
    something else than an object), the extractor returns the data it was
    given, unchanged, and logs the one error. *)
Theorem extractor_fails_soft (user_input : string) (d : QualificationData) (w : World)
    (e : exn) :
  extracted_items env
    (chat_completions_create env (length (filter is_model_call (events w)))
       (extraction_request user_input d)) = Raise e ->
  _extract_qualification_data env user_input d w
  = (Ok d, add_events [CallExtractor; ModelCall (extraction_request user_input d);
                       LogError "Error extracting qualification data" e] w).
Proof.
  intros Hreply. pose proof (extractor_run env user_input d w) as Hrun.
  cbn zeta in Hrun. rewrite Hreply in Hrun. exact Hrun.
Qed.

(** X15: a run of the extractor that logs no error leaves the urgency
    computed from the pain level: what the reply says under "urgency" is
    never kept. *)
Theorem extractor_recomputes_urgency (user_input : string) (d d' : QualificationData)
    (w w' : World) :
  _extract_qualification_data env user_input d w = (Ok d', w') ->
  Forall (fun ev => is_log_error ev = false) (events_since w w') ->
  urgency d' = Urgency (_calculate_urgency d').
Proof.
  intros Hrun Hquiet. pose proof (extractor_run env user_input d w) as Hsteps.
  cbn zeta in Hsteps. rewrite Hrun in Hsteps. clear Hrun.
  destruct (extracted_items env _) as [items|e].
  - destruct (apply_items env items d) as [[[]|e] d1]; injection Hsteps as -> ->.
    + reflexivity.
    + rewrite events_since_add_events in Hquiet.
      apply Forall_cons in Hquiet as [_ Hquiet].
      apply Forall_cons in Hquiet as [_ Hquiet].
      by apply Forall_cons in Hquiet as [Hlog _].
  - injection Hsteps as -> ->. rewrite events_since_add_events in Hquiet.
    apply Forall_cons in Hquiet as [_ Hquiet].
    apply Forall_cons in Hquiet as [_ Hquiet].
    by apply Forall_cons in Hquiet as [Hlog _].
Qed.

(** X16: an item of the reply that names an attribute of the object that
    is no field, with a true value, and whose assignment raises (pydantic
    raises [ValueError] for a public name such as "dict") stops the loop
    with that exception: the extractor returns the data with the plain items
    before it applied and the items after it dropped, logs the error, and
    does not compute the urgency again. *)
Theorem extractor_keeps_partial_update (user_input : string) (d : QualificationData)
    (w : World) (pre post : list (string * Py.val)) (key : string) (value : Py.val)
    (e : exn) :
  extracted_items env
    (chat_completions_create env (length (filter is_model_call (events w)))
       (extraction_request user_input d)) = Ok (pre ++ (key, value) :: post) ->
  Forall (plain_item env) pre ->
  Py.truthy value = true ->
  key ∉ field_names ->
  other_attribute env key = true ->
  assign_attribute env key value = Raise e ->
  _extract_qualification_data env user_input d w
  = (Ok (apply_items env pre d).2,
     add_events [CallExtractor; ModelCall (extraction_request user_input d);
                 LogError "Error extracting qualification data" e] w).
Proof.
  intros Hreply Hpre Hvalue Hfield Hattr Hraise.
  pose proof (apply_items_plain_ok env pre d Hpre) as Hok.
  pose proof (extractor_run env user_input d w) as Hrun. cbn zeta in Hrun.
  rewrite Hreply, apply_items_app in Hrun.
  destruct (apply_items env pre d) as [looped d1]. cbn in Hok. subst looped.
  cbn [apply_items snd] in Hrun |- *.
  unfold hasattr in Hrun. rewrite Hvalue, Hattr, orb_true_r in Hrun. cbn [andb] in Hrun.
  destruct (String.eqb_spec key "pain_level") as [-> | _].
  { exfalso. apply Hfield. unfold field_names. repeat constructor. }
  by rewrite setattr_non_field, Hraise in Hrun.
Qed.

(** X17: items with a false value (an empty string, zero, null, an empty
    list) and items that name no attribute of the object change nothing:
    the extractor returns the data it was given, with the urgency computed
    from its pain level. *)
Theorem extractor_passes_over_empty_and_unknown (user_input : string)
    (d : QualificationData) (w : World) (items : list (string * Py.val)) :
  extracted_items env
    (chat_completions_create env (length (filter is_model_call (events w)))
       (extraction_request user_input d)) = Ok items ->
  Forall (passed_over env) items ->
  _extract_qualification_data env user_input d w
  = (Ok (set_urgency (Urgency (_calculate_urgency d)) d),
     add_events [CallExtractor; ModelCall (extraction_request user_input d)] w).
Proof.
  intros Hreply Hitems. pose proof (extractor_run env user_input d w) as Hrun.
  cbn zeta in Hrun. by rewrite Hreply, (apply_items_passed_over items d Hitems) in Hrun.
Qed.

End Extraction.

Lemma extractor_fails_soft_witness :
  let d := qualification_data severe_session in
  _extract_qualification_data outage_env "My tooth hurts" d empty_world
  = (Ok d,
     add_events [CallExtractor; ModelCall (extraction_request "My tooth hurts" d);
                 LogError "Error extracting qualification data"
                   (OtherError "APIConnectionError")] empty_world).
Proof.
  apply (extractor_fails_soft outage_env "My tooth hurts" (qualification_data severe_session)
           empty_world).
  reflexivity.
Defined.

Lemma extractor_recomputes_urgency_witness :
  exists d' w',
    _extract_qualification_data (stub_env urgency_json urgency_reply) "My tooth hurts"
      QualificationData_new empty_world = (Ok d', w')
    /\ chief_complaint d' = Py.VStr "toothache"
    /\ urgency d' = Urgency UrgencyLevel.LOW.
Proof.
  eexists _, _. split; [vm_compute; reflexivity |]. split; [reflexivity |].
  match goal with
  | |- urgency ?d = _ => change (urgency d = Urgency (_calculate_urgency d))
  end.
  eapply (extractor_recomputes_urgency (stub_env urgency_json urgency_reply) "My tooth hurts"
           QualificationData_new _ empty_world _).
  - vm_compute. reflexivity.
  - vm_compute. repeat constructor.
Defined.

Lemma extractor_keeps_partial_update_witness :
  exists d1,
    (_extract_qualification_data (stub_env method_json method_reply) "My tooth hurts"
       QualificationData_new empty_world).1 = Ok d1
    /\ chief_complaint d1 = Py.VStr "toothache"
    /\ insurance_provider d1 = Py.VNone.
Proof.
  eexists.
  rewrite (extractor_keeps_partial_update (stub_env method_json method_reply)
             "My tooth hurts" QualificationData_new empty_world
             [("chief_complaint", Py.VStr "toothache")]
             [("insurance_provider", Py.VStr "Delta")] "dict" (Py.VStr "x") ValueError).
  - cbn [fst]. split; [reflexivity |]. split; reflexivity.
  - reflexivity.
  - constructor; [| constructor]. left. unfold field_names. cbn. repeat constructor.
  - reflexivity.
  - unfold field_names. intros Hin. no_member Hin. done.
  - reflexivity.
  - reflexivity.
Defined.

Lemma extractor_passes_over_witness :
  _extract_qualification_data (stub_env empty_values_json empty_values_reply)
    "I am fine" QualificationData_new empty_world
  = (Ok QualificationData_new,
     add_events [CallExtractor; ModelCall (extraction_request "I am fine" QualificationData_new)]
       empty_world).
Proof.
  apply (extractor_passes_over_empty_and_unknown
           (stub_env empty_values_json empty_values_reply) "I am fine"
           QualificationData_new empty_world
           [("pain_level", Py.VInt 0); ("mood", Py.VStr "fine");
            ("insurance_provider", Py.VStr "")]).
  - reflexivity.
  - constructor; [by left |]. constructor; [by right |].
    constructor; [by left | constructor].
Defined.

(** ** The first question *)

(** X18: the first question never raises and never touches a session.  The
    model is called once; its reply, stripped, is the question, and when the
    call fails or the reply has no choice or no content, the one error is
    logged and the fixed question is returned. *)
Theorem first_question_never_raises (env : Env) (lead_id : string) (w : World) :
  exists question evs,
    generate_first_question env lead_id w
    = (Ok question, add_events (ModelCall first_question_request :: evs) w)
    /\ (evs = []
        \/ exists e,
             evs = [LogError "Error generating first question" e]
             /\ question = first_question_fallback).
Proof.
  unfold generate_first_question, try_except. run.
  destruct (chat_completions_create env _ first_question_request)
    as [[|[text|] rest]|e]; cbn; run.
  - eexists _, _. split; [reflexivity |]. right. by eexists.
  - eexists _, _. split; [reflexivity |]. by left.
  - eexists _, _. split; [reflexivity |]. right. by eexists.
  - eexists _, _. split; [reflexivity |]. right. by eexists.
Qed.

(** ** Sessions: cleanup, summary, and the turns of other leads *)

Section Sessions.

Context (env : Env).

Ltac run_state :=
  repeat first
    [ run_step
    | progress unfold alloc, sessions_get, modify, load, sessions_set, ConversationTurn_new
    | progress unfold set_heap, add_events, set_active_sessions
    | progress cbn [heap events active_sessions message]
    | rewrite lookup_total_insert_eq
    | rewrite insert_insert_eq ].

Lemma cleanup_session_unsets (lead_id : string) (w : World) :
  active_sessions (cleanup_session lead_id w).2 !! lead_id = None.
Proof.
  unfold cleanup_session. case_bool_decide as Hstored; cbn.
  - apply lookup_delete_eq.
  - by destruct (active_sessions w !! lead_id); [destruct Hstored |].
Qed.

(** X19: [cleanup_session] forgets the session of the lead and of no other
    lead, and a second cleanup changes nothing. *)
Theorem cleanup_session_forgets_one_lead (lead_id other : string) (w : World) :
  let w' := (cleanup_session lead_id w).2 in
  stored_session w' lead_id = None
  /\ get_session_summary lead_id w' = (Ok None, w')
  /\ (other <> lead_id -> stored_session w' other = stored_session w other)
  /\ cleanup_session lead_id w' = (Ok (), w').
Proof.
  unfold cleanup_session, stored_session, get_session_summary.
  case_bool_decide as Hstored; cbn.
  - rewrite lookup_delete_eq. cbn. split; [done |]. split; [done |]. split.
    + intros Hne. by rewrite lookup_delete_ne.
    + reflexivity.
  - assert (active_sessions w !! lead_id = None) as Hnone.
    { by destruct (active_sessions w !! lead_id); [destruct Hstored |]. }
    by rewrite Hnone.
Qed.

(** X20: after a cleanup the next turn of the lead starts a new session:
    when it does not escalate, the session it stores counts one turn and
    holds the two new entries only, whatever the old session held. *)
Theorem turn_after_cleanup_starts_afresh (lead_id utterance call_sid : string)
    (w w' : World) (out : TurnResult) :
  process_conversation_turn env lead_id (Some utterance) call_sid
    (cleanup_session lead_id w).2 = (Ok out, w') ->
  is_escalate out = false ->
  exists user_turn ai_turn data,
    stored_session w' lead_id
    = Some (mkSessionContext [user_turn; ai_turn] data 1)
    /\ message user_turn = utterance
    /\ message ai_turn = response_of out.
Proof.
  intros Hrun Hout. rewrite turn_run_some in Hrun.
  pose proof (cleanup_session_unsets lead_id w) as Hunset.
  set (w0 := (cleanup_session lead_id w).2) in *.
  destruct (turn_body_run env lead_id utterance call_sid w0) as (d' & evs & _ & _ & Hbody).
  cbn zeta in Hbody. unfold session_before, session_loc, stored_session in Hbody.
  rewrite Hunset in Hbody. cbn [from_option mbind option_bind] in Hbody.
  destruct (_check_escalation_conditions utterance d').
  - destruct Hbody as (ai_response & gevs & ts & _ & Hbody).
    rewrite Hbody in Hrun. injection Hrun as <- <-.
    eexists _, _, d'. split_and!.
    + unfold stored_session. cbn. rewrite lookup_insert_eq. cbn.
      rewrite lookup_insert_eq. reflexivity.
    + reflexivity.
    + by destruct (ai_complete ai_response).
  - rewrite Hbody in Hrun. by injection Hrun as <- <-.
Qed.

(** X21: the summary after a turn that does not escalate reports the data
    the turn returned, two more entries of conversation and one more turn
    than the session the turn started from. *)
Theorem summary_after_turn (lead_id utterance call_sid : string) (w w' : World)
    (out : TurnResult) :
  process_conversation_turn env lead_id (Some utterance) call_sid w = (Ok out, w') ->
  is_escalate out = false ->
  exists data,
    (out = Continue (response_of out) data
     \/ exists scheduled, out = Complete (response_of out) data scheduled)
    /\ get_session_summary lead_id w'
       = (Ok (Some (mkSessionSummary data
                      (Z.of_nat (length (conversation_history (session_before w lead_id))) + 2)
                      (turn_count (session_before w lead_id) + 1))), w').
Proof.
  intros Hrun Hout. rewrite turn_run_some in Hrun.
  destruct (turn_body_run env lead_id utterance call_sid w) as (d' & evs & _ & _ & Hbody).
  cbn zeta in Hbody. destruct (_check_escalation_conditions utterance d').
  - destruct Hbody as (ai_response & gevs & ts & _ & Hbody).
    rewrite Hbody in Hrun. injection Hrun as <- <-. exists d'. split.
    + destruct (ai_complete ai_response); [right; by eexists | by left].
    + unfold get_session_summary. cbn. rewrite lookup_insert_eq.
      rewrite lookup_total_insert_eq. cbn. rewrite !length_app. cbn.
      do 3 f_equal. f_equal. lia.
  - rewrite Hbody in Hrun. by injection Hrun as <- <-.
Qed.

Lemma run_turns_wf (turns : list (string * option string * string)) (w : World) :
  sessions_wf w -> sessions_wf (run_turns env turns w).
Proof.
  revert w. induction turns as [|[[lead_id user_speech] call_sid] turns IH];
    intros w Hwf; cbn [run_turns]; [done |].
  apply IH. by apply turn_preserves_sessions_wf.
Qed.

(** X22: however many turns other leads take, and whatever the model
    answers them, the session stored for a lead stays as it is: no turn
    writes the dict of another lead. *)
Theorem turns_of_other_leads_keep_session (other : string)
    (turns : list (string * option string * string)) (w : World) :
  sessions_wf w ->
  Forall (fun turn => turn.1.1 <> other) turns ->
  stored_session (run_turns env turns w) other = stored_session w other
  /\ sessions_wf (run_turns env turns w).
Proof.
  intros Hwf Hturns. split; [| by apply run_turns_wf].
  revert w Hwf. induction Hturns as [|[[lead_id user_speech] call_sid] turns Hne _ IH];
    intros w Hwf; cbn [run_turns]; [done |].
  cbn in Hne. rewrite IH by by apply turn_preserves_sessions_wf.
  apply turn_leaves_other_leads; [done | congruence].
Qed.

End Sessions.

Lemma turn_after_cleanup_witness :
  exists user_turn ai_turn data,
    stored_session
      (process_conversation_turn (constant_env "Since when?") "lead-1"
         (Some "It hurts again") "CA2"
         (cleanup_session "lead-1" (world_with "lead-1" severe_session)).2).2 "lead-1"
    = Some (mkSessionContext [user_turn; ai_turn] data 1)
    /\ message user_turn = "It hurts again"
    /\ message ai_turn = "Since when?".
Proof.
  apply (turn_after_cleanup_starts_afresh (constant_env "Since when?") "lead-1"
           "It hurts again" "CA2" (world_with "lead-1" severe_session) _
           (Continue "Since when?" QualificationData_new)).
  - vm_compute. reflexivity.
  - reflexivity.
Defined.

Lemma summary_after_turn_witness :
  exists data,
    (Continue "Since when?" QualificationData_new = Continue "Since when?" data
     \/ exists scheduled,
          Continue "Since when?" QualificationData_new
          = Complete "Since when?" data scheduled)
    /\ get_session_summary "lead-1"
         (process_conversation_turn (constant_env "Since when?") "lead-1"
            (Some "My tooth hurts") "CA1" empty_world).2
       = (Ok (Some (mkSessionSummary data 2 1)),
          (process_conversation_turn (constant_env "Since when?") "lead-1"
             (Some "My tooth hurts") "CA1" empty_world).2).
Proof.
  apply (summary_after_turn (constant_env "Since when?") "lead-1" "My tooth hurts" "CA1"
           empty_world _ (Continue "Since when?" QualificationData_new)).
  - vm_compute. reflexivity.
  - reflexivity.
Defined.

Lemma turns_of_other_leads_witness :
  let turns := [("lead-2", Some "My tooth hurts", "CA2"); ("lead-3", None, "CA3");
                ("lead-2", Some breath_utterance, "CA2")] in
  let w := world_with "lead-1" severe_session in
  stored_session (run_turns outage_env turns w) "lead-1" = Some severe_session
  /\ sessions_wf (run_turns outage_env turns w).
Proof.
  apply (turns_of_other_leads_keep_session outage_env "lead-1").
  - split; unfold world_with; cbn [active_sessions heap].
    + intros k l [<- <-]%lookup_singleton_Some. by rewrite lookup_singleton_eq.
    + intros k1 k2 l [<- _]%lookup_singleton_Some [<- _]%lookup_singleton_Some. done.
  - repeat constructor; done.
Defined.

(** ** The steps of a turn *)

(** What the generator returns, on every input: the record of its call, at
    most one call of the model after it, and a reply that settles the
    conversation when ten turns are counted and schedules only on a known
    complaint and a known pain level. *)
Lemma generator_cases (env : Env) (history : list ConversationTurn)
    (data : QualificationData) (turns : Z) (w : World) :
  exists response evs,
    _generate_ai_response env history data turns w
    = (Ok response, add_events (CallGenerator :: evs) w)
    /\ (evs = []
        \/ exists request logs,
             evs = ModelCall request :: logs
             /\ Forall (fun ev => is_log_error ev = true) logs)
    /\ (10 <= turns -> ai_complete response = true)
    /\ (ai_appointment_scheduled response = Some true ->
        ai_message response = scheduling_message
        /\ Py.truthy (chief_complaint data) = true
        /\ truthy_pain_level (pain_level data) = true).
Proof.
  destruct ((10 <=? turns) || bool_decide (_identify_missing_data data = [])) eqn:Hask.
  - rewrite (generator_concludes env history data turns w Hask).
    eexists _, []. split; [reflexivity |]. split; [by left |].
    split; [done |]. cbn.
    destruct (Py.truthy (chief_complaint data)), (truthy_pain_level (pain_level data));
      cbn; intros [=]; done.
  - rewrite (generator_asks_the_model _ _ _ _ _ Hask).
    apply orb_false_elim in Hask as [Hturns _]. apply Z.leb_gt in Hturns.
    destruct (_ ≫= _) as [text|e]; eexists _, _; (split; [reflexivity |]).
    + split; [right; eexists _, []; by split |]. split; [lia | intros [=]].
    + split; [right; eexists _, [_]; split; [reflexivity | by repeat constructor] |].
      split; [done | intros [=]].
Qed.

Section TurnSteps.

Context (env : Env).

Ltac run_state :=
  repeat first
    [ run_step
    | progress unfold alloc, sessions_get, modify, load, sessions_set, ConversationTurn_new
    | progress unfold set_heap, add_events, set_active_sessions
    | progress cbn [heap events active_sessions message]
    | rewrite lookup_total_insert_eq
    | rewrite insert_insert_eq ].

(** A turn with an utterance, step by step: the extractor runs on the data
    of the session, the evaluator on what it returns, and the generator, if
    it runs, on that same data and on the count of the turn; the events of
    the turn are theirs and the two reads of the clock. *)
Lemma turn_steps (lead_id utterance call_sid : string) (w : World) :
  let before := session_before w lead_id in
  exists d' evs,
    Forall (fun ev => is_log_error ev = true) evs /\
    let evs1 :=
      ClockRead :: CallExtractor
        :: ModelCall (extraction_request utterance (qualification_data before))
        :: evs ++ [CallEvaluator (_check_escalation_conditions utterance d')] in
    let result := process_conversation_turn env lead_id (Some utterance) call_sid w in
    match _check_escalation_conditions utterance d' with
    | EscalateNow reason message =>
        result.1 = Ok (Escalate reason message)
        /\ events result.2 = events w ++ evs1
    | NoEscalation =>
        exists ai_response gevs,
          (gevs = []
           \/ exists request logs,
                gevs = ModelCall request :: logs
                /\ Forall (fun ev => is_log_error ev = true) logs)
          /\ (10 <= turn_count before + 1 -> ai_complete ai_response = true)
          /\ (ai_appointment_scheduled ai_response = Some true ->
              ai_message ai_response = scheduling_message
              /\ Py.truthy (chief_complaint d') = true
              /\ truthy_pain_level (pain_level d') = true)
          /\ result.1
             = Ok (if ai_complete ai_response
                   then Complete (ai_message ai_response) d'
                          (default false (ai_appointment_scheduled ai_response))
                   else Continue (ai_message ai_response) d')
          /\ events result.2 = events w ++ evs1 ++ CallGenerator :: gevs ++ [ClockRead]
    end.
Proof.
  intros before. rewrite turn_run_some.
  unfold process_conversation_turn_body. run_state.
  change (default (fresh (dom (heap w))) (active_sessions w !! lead_id))
    with (session_loc w lead_id).
  change {| conversation_history := []; qualification_data := QualificationData_new;
            turn_count := 0 |} with new_session.
  rewrite session_loc_holds. fold before.
  match goal with
  | |- context [_extract_qualification_data env ?u ?d ?w1] =>
      destruct (extractor_returns env u d w1) as (d' & evs & Hextract & Hevs & _)
  end.
  exists d', evs. split; [exact Hevs |].
  rewrite Hextract. clear Hextract. run_state.
  destruct (_check_escalation_conditions utterance d') as [|reason message] eqn:Hcheck.
  - run_state.
    match goal with
    | |- context [_generate_ai_response env ?h ?d ?t ?w1] =>
        destruct (generator_cases env h d t w1)
          as (ai_response & gevs & Hgen & Hcalls & Hlimit & Hscheduled)
    end.
    exists ai_response, gevs. split; [exact Hcalls |].
    split; [exact Hlimit |]. split; [exact Hscheduled |].
    rewrite Hgen. clear Hgen. run_state.
    destruct (ai_complete ai_response); cbn; (split; [reflexivity | assoc_events]).
  - run_state. split; [reflexivity |]. cbn. assoc_events.
Qed.

End TurnSteps.

(** ** What a turn returns *)

Section TurnOutcomes.

Context (env : Env).

Ltac count_events :=
  repeat first
    [ rewrite filter_app
    | rewrite filter_nil
    | rewrite filter_cons_True by done
    | rewrite filter_cons_False by (cbn; auto) ].

Lemma events_since_events (w w' : World) (evs : list Event) :
  events w' = events w ++ evs -> events_since w w' = evs.
Proof. intros Hevs. unfold events_since. rewrite Hevs. by rewrite drop_app_length. Qed.

Lemma evaluator_answers (user_input : string) (data : QualificationData)
    (reason message : string) :
  _check_escalation_conditions user_input data = EscalateNow reason message ->
  (reason = "severe_pain" /\ message = severe_pain_message)
  \/ (reason = "emergency_condition" /\ message = emergency_message).
Proof.
  unfold _check_escalation_conditions.
  case_bool_decide; [intros [= <- <-]; by left |].
  generalize emergency_keywords. intros keywords Hscan. right.
  induction keywords as [|keyword keywords IH]; cbn in Hscan; [done |].
  destruct (Py.contains keyword _); [by injection Hscan as <- <- | by apply IH].
Qed.

Lemma evaluator_reasons (user_input : string) (data : QualificationData)
    (reason message : string) :
  _check_escalation_conditions user_input data = EscalateNow reason message ->
  reason = "severe_pain" \/ reason = "emergency_condition".
Proof.
  unfold _check_escalation_conditions. case_bool_decide; [intros [= <- _]; by left |].
  generalize emergency_keywords. intros keywords Hscan. right.
  induction keywords as [|keyword keywords IH]; cbn in Hscan; [done |].
  destruct (Py.contains keyword _); [by injection Hscan as <- _ | by apply IH].
Qed.

(** X23: a conversation ends by its tenth turn.  A turn of a session that
    has counted nine turns or more never asks a further question: it
    escalates or it completes, whatever the lead says and the model
    answers. *)
Theorem turn_at_limit_never_continues (lead_id : string) (user_speech : option string)
    (call_sid : string) (w : World) :
  9 <= turn_count (session_before w lead_id) ->
  exists out w',
    process_conversation_turn env lead_id user_speech call_sid w = (Ok out, w')
    /\ is_continue out = false.
Proof.
  intros Hlate. destruct user_speech as [utterance|].
  2: { rewrite turn_run_none. by eexists _, _. }
  destruct (turn_steps env lead_id utterance call_sid w) as (d' & evs & _ & Hsteps).
  cbn zeta in Hsteps.
  destruct (process_conversation_turn env lead_id (Some utterance) call_sid w)
    as [result w']. cbn [fst snd] in Hsteps.
  destruct (_check_escalation_conditions utterance d').
  - destruct Hsteps as (ai_response & gevs & _ & Hlimit & _ & -> & _).
    rewrite Hlimit by lia. by eexists _, _.
  - destruct Hsteps as [-> _]. by eexists _, _.
Qed.

(** X24: a turn reports a scheduled appointment only with the fixed
    scheduling message and for data that hold a chief complaint and a pain
    level; the insurance and the preferred time may still be missing, when
    the ten turns are used up. *)
Theorem scheduled_appointment_has_complaint_and_pain (lead_id : string)
    (user_speech : option string) (call_sid : string) (w w' : World)
    (response : string) (data : QualificationData) :
  process_conversation_turn env lead_id user_speech call_sid w
  = (Ok (Complete response data true), w') ->
  response = scheduling_message
  /\ Py.truthy (chief_complaint data) = true
  /\ is_Some (pain_level data).
Proof.
  intros Hrun. destruct user_speech as [utterance|].
  2: { by rewrite turn_run_none in Hrun. }
  destruct (turn_steps env lead_id utterance call_sid w) as (d' & evs & _ & Hsteps).
  cbn zeta in Hsteps. rewrite Hrun in Hsteps. cbn [fst snd] in Hsteps.
  destruct (_check_escalation_conditions utterance d').
  - destruct Hsteps as (ai_response & gevs & _ & _ & Hscheduled & Hout & _).
    destruct (ai_complete ai_response); [| done].
    injection Hout as -> -> Hflag.
    destruct (ai_appointment_scheduled ai_response) as [[]|]; try done.
    destruct Hscheduled as (Hmessage & Hcomplaint & Hpain); [done |].
    split; [done |]. split; [done |]. by destruct (pain_level d').
  - by destruct Hsteps as [[=] _].
Qed.

(** X25: the answers a turn escalates with.  The reason and the message of
    an escalation are one of three fixed pairs: "severe_pain" and
    "emergency_condition" with the messages of the evaluator, and
    "technical_error" with the message of the handler; a turn without an
    utterance escalates with the last. *)
Theorem turn_escalation_reasons (lead_id : string) (user_speech : option string)
    (call_sid : string) (w w' : World) (reason message : string) :
  process_conversation_turn env lead_id user_speech call_sid w
  = (Ok (Escalate reason message), w') ->
  (reason, message) ∈ escalation_answers
  /\ (user_speech = None -> reason = "technical_error").
Proof.
  intros Hrun. unfold escalation_answers. destruct user_speech as [utterance|].
  2: { rewrite turn_run_none in Hrun. injection Hrun as <- <- _.
       split; [repeat constructor | done]. }
  split; [| done].
  destruct (turn_steps env lead_id utterance call_sid w) as (d' & evs & _ & Hsteps).
  cbn zeta in Hsteps. rewrite Hrun in Hsteps. cbn [fst snd] in Hsteps.
  destruct (_check_escalation_conditions utterance d') as [|reason' message'] eqn:Hcheck.
  - destruct Hsteps as (ai_response & gevs & _ & _ & _ & Hout & _).
    by destruct (ai_complete ai_response).
  - destruct Hsteps as [[= -> ->] _].
    destruct (evaluator_answers _ _ _ _ Hcheck) as [[-> ->] | [-> ->]];
      repeat constructor.
Qed.

(** X26: a turn calls the model at most twice and reads the clock at most
    twice, on every input and whatever the model answers. *)
Theorem turn_calls_model_at_most_twice (lead_id : string) (user_speech : option string)
    (call_sid : string) (w : World) :
  let w' := (process_conversation_turn env lead_id user_speech call_sid w).2 in
  (length (filter is_model_call (events_since w w')) <= 2)%nat
  /\ (length (filter is_clock_read (events_since w w')) <= 2)%nat.
Proof.
  assert (forall evs, Forall (fun ev => is_log_error ev = true) evs ->
                      filter is_clock_read evs = []) as Hclock.
  { induction 1 as [|ev evs Hev _ IH]; [done |].
    rewrite filter_cons_False; [done |]. destruct ev; cbn in *; by auto. }
  destruct user_speech as [utterance|].
  2: { rewrite turn_run_none. cbn [snd]. rewrite events_since_app.
       count_events. split; cbn; lia. }
  destruct (turn_steps env lead_id utterance call_sid w) as (d' & evs & Hevs & Hsteps).
  cbn zeta in Hsteps |- *.
  destruct (process_conversation_turn env lead_id (Some utterance) call_sid w)
    as [result w']. cbn [fst snd] in Hsteps |- *.
  destruct (_check_escalation_conditions utterance d').
  - destruct Hsteps as (ai_response & gevs & Hgevs & _ & _ & _ & Hevents).
    rewrite (events_since_events _ _ _ Hevents).
    destruct Hgevs as [-> | (request & logs & -> & Hlogs)]; count_events;
      rewrite ?(model_calls_of_logs evs), ?(Hclock evs),
        ?(model_calls_of_logs logs), ?(Hclock logs) by done;
      split; cbn; lia.
  - destruct Hsteps as [_ Hevents]. rewrite (events_since_events _ _ _ Hevents).
    count_events. rewrite (model_calls_of_logs evs), (Hclock evs) by done.
    split; cbn; lia.
Qed.

End TurnOutcomes.

Lemma turn_at_limit_witness :
  exists out w',
    process_conversation_turn (constant_env "Since when?") "lead-1" (Some "It still hurts")
      "CA1" (world_with "lead-1" late_session) = (Ok out, w')
    /\ is_continue out = false.
Proof.
  apply (turn_at_limit_never_continues (constant_env "Since when?") "lead-1"
           (Some "It still hurts") "CA1" (world_with "lead-1" late_session)).
  by vm_compute.
Defined.

Lemma scheduled_appointment_witness :
  (process_conversation_turn outage_env "lead-1" (Some "Friday would suit me") "CA1"
     (world_with "lead-1" ready_session)).1
  = Ok (Complete scheduling_message (qualification_data ready_session) true)
  /\ scheduling_message = scheduling_message
  /\ Py.truthy (chief_complaint (qualification_data ready_session)) = true
  /\ is_Some (pain_level (qualification_data ready_session)).
Proof.
  split; [vm_compute; reflexivity |].
  eapply (scheduled_appointment_has_complaint_and_pain outage_env "lead-1"
            (Some "Friday would suit me") "CA1" (world_with "lead-1" ready_session)).
  vm_compute. reflexivity.
Defined.

Lemma turn_escalation_reasons_witness :
  ("emergency_condition", emergency_message) ∈ escalation_answers
  /\ (Some breath_utterance = None -> "emergency_condition" = "technical_error").
Proof.
  eapply (turn_escalation_reasons outage_env "lead-1" (Some breath_utterance) "CA1"
            empty_world).
  vm_compute. reflexivity.
Defined.

(** ** The webhook of new contacts *)

Section Webhook.

Implicit Types (s : WebhookService) (lead : Lead.t) (event : string).

(** A valid lead, by the answer of the do-not-call list about its phone. *)
Lemma process_webhook_valid event lead s :
  _validate_lead_data lead = true ->
  let is_dnc := (check_dnc_status (Py.VStr (Lead.phone lead)) (dnc_service s)).1 in
  let stored := Lead.set_dnc_status false lead in
  let result := process_webhook event (Ok lead) s in
  result.1 = (if is_dnc then inr (Skipped "DNC_listed")
              else inr (Processed (Lead.id lead) "call_scheduled"))
  /\ leads (db_service result.2)
     = (if is_dnc then leads (db_service s)
        else <[Lead.id lead := stored]> (leads (db_service s)))
  /\ background_tasks result.2
     = background_tasks s
       ++ (if negb is_dnc && String.eqb event "contact.created"
           then [(stored, set_dnc_checked true ComplianceFlags_new)] else [])
  /\ dnc_set (dnc_service result.2) = dnc_set (dnc_service s).
Proof.
  intros Hvalid. unfold process_webhook, _check_compliance. rewrite Hvalid.
  cbn [negb webhook_logged dnc_service db_service background_tasks webhook_log].
  unfold check_dnc_status, _normalize_phone_number.
  destruct (String.length (keep_digits (Lead.phone lead)) =? 10)%nat;
    cbn [fst snd]; destruct (bool_decide (_ ∈ dnc_set (dnc_service s))); cbn;
    rewrite ?app_nil_r; try done;
    destruct (String.eqb event "contact.created"); cbn; by rewrite ?app_nil_r.
Qed.

(** X27: a lead whose phone was put on the do-not-call list, in whatever
    notation with the same normalised form, is skipped: nothing is stored and
    no call is scheduled, and the answer names the list as the reason. *)
Theorem webhook_skips_listed_number event lead s (number : string) :
  _validate_lead_data lead = true ->
  _normalize_phone_number (Py.VStr number)
  = _normalize_phone_number (Py.VStr (Lead.phone lead)) ->
  let result := process_webhook event (Ok lead) (with_number_listed number s) in
  result.1 = inr (Skipped "DNC_listed")
  /\ leads (db_service result.2) = leads (db_service s)
  /\ background_tasks result.2 = background_tasks s.
Proof.
  intros Hvalid Hdigits.
  destruct (process_webhook_valid event lead (with_number_listed number s) Hvalid)
    as (Hreply & Hleads & Htasks & _).
  assert ((check_dnc_status (Py.VStr (Lead.phone lead))
             (dnc_service (with_number_listed number s))).1 = true) as Hlisted.
  { unfold with_number_listed, check_dnc_status, add_to_dnc_list.
    cbn [dnc_service]. rewrite Hdigits. unfold _normalize_phone_number.
    destruct (String.length (keep_digits (Lead.phone lead)) =? 10)%nat; cbn;
      apply bool_decide_eq_true; apply elem_of_union_l; by apply elem_of_singleton. }
  rewrite Hlisted in Hreply, Hleads, Htasks. cbn in Htasks.
  rewrite app_nil_r in Htasks. by split_and!.
Qed.

(** X28: every failure of [process_webhook] is the status 500.  The status
    400 raised for a lead without id, first name or phone is caught by the
    handler of the same function and replaced, as is the exception of a
    payload that gives no lead at all; nothing is stored or scheduled then,
    and every other payload is answered. *)
Theorem webhook_failure_is_always_500 event (to_lead : Result Lead.t) s :
  let result := process_webhook event to_lead s in
  if webhook_invalid to_lead
  then result.1 = inl (HTTPException 500 "Webhook processing failed")
       /\ db_service result.2 = db_service s
       /\ background_tasks result.2 = background_tasks s
       /\ dnc_service result.2 = dnc_service s
  else exists reply, result.1 = inr reply.
Proof.
  destruct to_lead as [lead|e]; cbn [webhook_invalid].
  2: { unfold process_webhook, webhook_failed. cbn. by split_and!. }
  destruct (_validate_lead_data lead) eqn:Hvalid; cbn [negb].
  - destruct (process_webhook_valid event lead s Hvalid) as (Hreply & _).
    cbn zeta in Hreply |- *. rewrite Hreply.
    destruct (check_dnc_status _ _).1; by eexists.
  - unfold process_webhook, webhook_failed. rewrite Hvalid. cbn. by split_and!.
Qed.

(** X29: a lead with id, first name and phone whose number is not listed is
    stored and answered with "call_scheduled" on every event, but the call is
    scheduled on "contact.created" only.  The lead is stored and scheduled
    with the do-not-call flag false, whatever flag the payload carried, and
    its greeting starts with its first name. *)
Theorem webhook_processes_unlisted_lead event lead s :
  _validate_lead_data lead = true ->
  (check_dnc_status (Py.VStr (Lead.phone lead)) (dnc_service s)).1 = false ->
  let result := process_webhook event (Ok lead) s in
  let stored := Lead.set_dnc_status false lead in
  result.1 = inr (Processed (Lead.id lead) "call_scheduled")
  /\ (forall now, get_lead now (Lead.id lead) (db_service result.2) = stored)
  /\ background_tasks result.2
     = background_tasks s
       ++ (if String.eqb event "contact.created"
           then [(stored, set_dnc_checked true ComplianceFlags_new)] else [])
  /\ exists rest,
       _create_personalized_greeting stored = "Hello " +:+ Lead.first_name lead +:+ rest.
Proof.
  intros Hvalid Hfree.
  destruct (process_webhook_valid event lead s Hvalid) as (Hreply & Hleads & Htasks & _).
  rewrite Hfree in Hreply, Hleads, Htasks. cbn zeta. split; [exact Hreply |].
  split; [| split; [exact Htasks |]].
  - intros now. unfold get_lead. rewrite Hleads. by rewrite lookup_insert_eq.
  - unfold _create_personalized_greeting. cbn [Lead.first_name Lead.set_dnc_status].
    unfold _validate_lead_data in Hvalid. cbn [forallb] in Hvalid.
    destruct (String.eqb (Lead.first_name lead) "").
    + by rewrite andb_false_r in Hvalid.
    + by eexists.
Qed.

End Webhook.

Lemma webhook_skips_listed_number_witness :
  let result := process_webhook "contact.created" (Ok sample_lead)
                  (with_number_listed "+1 555-010-0199" WebhookService_new) in
  result.1 = inr (Skipped "DNC_listed")
  /\ leads (db_service result.2) = leads (db_service WebhookService_new)
  /\ background_tasks result.2 = background_tasks WebhookService_new.
Proof.
  apply (webhook_skips_listed_number "contact.created" sample_lead WebhookService_new
           "+1 555-010-0199"); reflexivity.
Defined.

Lemma webhook_processes_flagged_lead_witness :
  let result := process_webhook "contact.updated" (Ok flagged_lead) WebhookService_new in
  let stored := Lead.set_dnc_status false flagged_lead in
  result.1 = inr (Processed "contact-1" "call_scheduled")
  /\ (forall now, get_lead now "contact-1" (db_service result.2) = stored)
  /\ background_tasks result.2 = []
  /\ exists rest, _create_personalized_greeting stored = "Hello " +:+ "Ana" +:+ rest.
Proof.
  apply (webhook_processes_unlisted_lead "contact.updated" flagged_lead WebhookService_new);
    reflexivity.
Defined.

(** ** The response to an escalation *)

(** X30: whatever a turn escalates for, the response built from its reason
    says the generic sentence and dials the escalation number: the reasons a
    turn gives are never the "emergency" that [create_escalation_twiml]
    has the urgent sentence for, and the message of the turn is not said. *)
Theorem escalated_turn_says_generic_sentence (env : Env) (escalation_phone lead_id : string)
    (user_speech : option string) (call_sid : string) (w w' : World)
    (reason message : string) :
  process_conversation_turn env lead_id user_speech call_sid w
  = (Ok (Escalate reason message), w') ->
  create_escalation_twiml escalation_phone lead_id reason
  = [Say team_member_sentence "alice";
     Dial escalation_phone 30 ("/voice/escalation-complete/" +:+ lead_id) "POST"].
Proof.
  intros Hrun.
  assert (reason ∈ ["technical_error"; "severe_pain"; "emergency_condition"]) as Hreason.
  { destruct user_speech as [utterance|].
    2: { rewrite turn_run_none in Hrun. injection Hrun as <- _ _. constructor. }
    destruct (turn_steps env lead_id utterance call_sid w) as (d' & evs & _ & Hsteps).
    cbn zeta in Hsteps. rewrite Hrun in Hsteps. cbn [fst snd] in Hsteps.
    destruct (_check_escalation_conditions utterance d') as [|reason' message'] eqn:Hcheck.
    - destruct Hsteps as (ai_response & gevs & _ & _ & _ & Hout & _).
      by destruct (ai_complete ai_response).
    - destruct Hsteps as [[= -> ->] _].
      destruct (evaluator_reasons _ _ _ _ Hcheck) as [-> | ->]; repeat constructor. }
  unfold create_escalation_twiml.
  repeat (apply elem_of_cons in Hreason as [-> | Hreason]; [reflexivity |]).
  by apply elem_of_nil in Hreason.
Qed.

Lemma escalated_turn_witness :
  create_escalation_twiml "+1234567890" "lead-1" "emergency_condition"
  = [Say team_member_sentence "alice";
     Dial "+1234567890" 30 ("/voice/escalation-complete/" +:+ "lead-1") "POST"].
Proof.
  eapply (escalated_turn_says_generic_sentence outage_env "+1234567890" "lead-1"
            (Some breath_utterance) "CA1" empty_world).
  vm_compute. reflexivity.
Defined.
